(** * Authorization core of the Azure AD Angular application

    A shallow embedding of [AuthService] (auth.service.ts) and of the role
    extraction of [GraphService] (graph.service.ts), with the properties of
    the role deriver, the profile assembler and the auth state store.

    Strings.  Role and group names are modelled as [string], a sequence of
    8-bit characters, read as ASCII text.  On ASCII text JavaScript's
    [String.prototype.toLowerCase] maps 'A'..'Z' to 'a'..'z' and leaves every
    other character alone; that is [Js.toLowerCase] below.  Names with
    characters outside ASCII are outside the model. *)

From Stdlib Require Import String Ascii List Bool Arith Lia Permutation.
From Stdlib Require Import DecimalString.
Import ListNotations.
Open Scope string_scope.
Open Scope list_scope.

(* ================================================================ *)
(** ** JavaScript primitives used by the services *)

Module Js.

(** One character of [toLowerCase]: 'A'..'Z' (65..90) move up by 32. *)
Definition toLowerCaseChar (c : ascii) : ascii :=
  let n := nat_of_ascii c in
  if ((65 <=? n) && (n <=? 90))%nat then ascii_of_nat (n + 32) else c.

(** [s.toLowerCase()] *)
Fixpoint toLowerCase (s : string) : string :=
  match s with
  | EmptyString => EmptyString
  | String c t => String (toLowerCaseChar c) (toLowerCase t)
  end.

(** [s.includes(sub)]: [sub] occurs in [s] at some position. *)
Fixpoint includes (s sub : string) : bool :=
  match s with
  | EmptyString => prefix sub EmptyString
  | String _ t => prefix sub s || includes t sub
  end.

(** [arr.includes(x)] on an array of strings (strict equality). *)
Definition arrayIncludes (arr : list string) (x : string) : bool :=
  existsb (String.eqb x) arr.

(** [arr.some(f)] *)
Definition some {A} (f : A -> bool) (arr : list A) : bool := existsb f arr.

(** [[...new Set(arr)]]: the distinct elements, each at the place of its
    first occurrence. *)
Fixpoint uniqueFrom (seen arr : list string) : list string :=
  match arr with
  | [] => []
  | x :: t =>
      if arrayIncludes seen x then uniqueFrom seen t
      else x :: uniqueFrom (x :: seen) t
  end.

Definition unique (arr : list string) : list string := uniqueFrom [] arr.

(** [v || d] for an optional string: [undefined], [null] and the empty
    string are falsy. *)
Definition strOr (v : option string) (d : string) : string :=
  match v with
  | Some s => if s =? "" then d else s
  | None => d
  end.

(** [v || d] where both sides are optional strings. *)
Definition optOr (v d : option string) : option string :=
  match v with
  | Some s => if s =? "" then d else Some s
  | None => d
  end.

(** Two strings that differ at most in the case of their letters. *)
Fixpoint eqIgnoreCase (a b : string) : bool :=
  match a, b with
  | EmptyString, EmptyString => true
  | String c a', String d b' =>
      Ascii.eqb (toLowerCaseChar c) (toLowerCaseChar d) && eqIgnoreCase a' b'
  | _, _ => false
  end.

End Js.

(* ================================================================ *)
(** ** Role deriver *)

(** [UserProfile['permissions']] *)
Record Permissions : Type := mkPermissions {
  canViewDashboard : bool;
  canManageUsers : bool;
  canSendEmails : bool;
  canViewReports : bool;
  canManageSettings : bool
}.

(** Assignments [permissions.f = true] on the mutable record. *)
Definition grantViewDashboard (p : Permissions) : Permissions :=
  mkPermissions true (canManageUsers p) (canSendEmails p) (canViewReports p)
    (canManageSettings p).
Definition grantManageUsers (p : Permissions) : Permissions :=
  mkPermissions (canViewDashboard p) true (canSendEmails p) (canViewReports p)
    (canManageSettings p).
Definition grantSendEmails (p : Permissions) : Permissions :=
  mkPermissions (canViewDashboard p) (canManageUsers p) true (canViewReports p)
    (canManageSettings p).
Definition grantViewReports (p : Permissions) : Permissions :=
  mkPermissions (canViewDashboard p) (canManageUsers p) (canSendEmails p) true
    (canManageSettings p).
Definition grantManageSettings (p : Permissions) : Permissions :=
  mkPermissions (canViewDashboard p) (canManageUsers p) (canSendEmails p)
    (canViewReports p) true.

(** [Object.values(permissions)], in the order the keys were created. *)
Definition objectValues (p : Permissions) : list bool :=
  [canViewDashboard p; canManageUsers p; canSendEmails p; canViewReports p;
   canManageSettings p].

(** [AuthService.initializePermissions]: the argument is not looked at. *)
Definition initializePermissions (roles : list string) : Permissions :=
  mkPermissions false false false false false.

(** The body of the [roles.forEach] callback of [calculatePermissions]: the
    [switch] on the lower-cased role, with its [default] branch. *)
Definition applyRole (permissions : Permissions) (role : string) : Permissions :=
  let roleLower := Js.toLowerCase role in
  if (roleLower =? "admin") || (roleLower =? "administrator") then
    grantManageSettings (grantViewReports (grantSendEmails
      (grantManageUsers (grantViewDashboard permissions))))
  else if roleLower =? "editor" then
    grantViewReports (grantSendEmails (grantViewDashboard permissions))
  else if roleLower =? "viewer" then
    grantViewReports (grantViewDashboard permissions)
  else if roleLower =? "user" then
    grantViewDashboard permissions
  else
    let p1 := if Js.includes roleLower "admin"
              then grantManageSettings (grantManageUsers permissions)
              else permissions in
    let p2 := if Js.includes roleLower "editor" || Js.includes roleLower "write"
              then grantSendEmails p1 else p1 in
    let p3 := if Js.includes roleLower "view" || Js.includes roleLower "read"
              then grantViewReports p2 else p2 in
    p3.

(** [AuthService.calculatePermissions] *)
Definition calculatePermissions (roles : list string) : Permissions :=
  let permissions := fold_left applyRole roles (initializePermissions roles) in
  if Js.some (fun value => Bool.eqb value true) (objectValues permissions)
  then grantViewDashboard permissions
  else permissions.

(** [GraphService.extractRolesFromGroup] *)
Definition extractRolesFromGroup (groupName : string) : list string :=
  let roles : list string := [] in
  let roles := if Js.includes (Js.toLowerCase groupName) "admin"
               then roles ++ ["Admin"] else roles in
  let roles := if Js.includes (Js.toLowerCase groupName) "editor"
               then roles ++ ["Editor"] else roles in
  let roles := if Js.includes (Js.toLowerCase groupName) "viewer"
               then roles ++ ["Viewer"] else roles in
  let roles := if (length roles =? 0)%nat then roles ++ ["User"] else roles in
  roles.

(* ================================================================ *)
(** ** Data model *)

(** [GraphUser], the fields the profile assembler reads. *)
Record GraphUser : Type := mkGraphUser {
  gu_id : string;
  gu_displayName : string;
  gu_mail : string;
  gu_userPrincipalName : string;
  gu_jobTitle : option string;
  gu_officeLocation : option string
}.

(** [AzureADGroup] *)
Record AzureADGroup : Type := mkAzureADGroup {
  grp_id : string;
  grp_displayName : string;
  grp_description : option string;
  grp_roles : list string
}.

(** [UserProfile]; an optional field that is absent is [None]. *)
Record UserProfile : Type := mkUserProfile {
  name : string;
  email : string;
  username : string;
  roles : list string;
  groups : list AzureADGroup;
  jobTitle : option string;
  officeLocation : option string;
  graphProfile : option GraphUser;
  permissions : Permissions
}.

(** The claims of the id token that [loadUserProfile] reads. *)
Record IdTokenClaims : Type := mkIdTokenClaims {
  claim_roles : option (list string);
  claim_jobTitle : option string;
  claim_officeLocation : option string
}.

(** An MSAL account as [loadUserProfile] reads it. *)
Record Account : Type := mkAccount {
  acc_name : option string;
  acc_username : option string;
  acc_idTokenClaims : option IdTokenClaims
}.

(** The parameter [account: any]: [None] is [null] or [undefined], on which
    every property read throws. *)
Definition JsAccount : Type := option Account.

(** An element of the [/me/memberOf] response. *)
Record DirectoryObject : Type := mkDirectoryObject {
  do_odataType : string;
  do_id : string;
  do_displayName : option string;
  do_description : option string
}.

(** What can be thrown. *)
Inductive JsError : Type :=
| TypeError
| ProviderError (message : string).

(** How a computation ends: normally with a value, or by throwing. *)
Inductive Completion (A : Type) : Type :=
| Normal (a : A)
| Throw (e : JsError).
Arguments Normal {A} a.
Arguments Throw {A} e.

(** What the directory answers during one profile load: the result of the
    [/me] request (a rejection, or the response, possibly [null]) and of the
    [/me/memberOf] request (a rejection, or the response's [value], possibly
    absent).  A failure to obtain the client or its token is a rejection. *)
Record GraphEnv : Type := mkGraphEnv {
  meResponse : Completion (option GraphUser);
  memberOfResponse : Completion (option (list DirectoryObject))
}.

(* ================================================================ *)
(** ** Auth state store and the monad of its operations *)

(** A value sent to the observers by [subject.next(v)]. *)
Inductive Emission : Type :=
| EmitProfile (p : option UserProfile)
| EmitAuthenticated (b : bool)
| EmitLoading (b : bool).

(** The private state of [AuthService]: the current value of the three
    behaviour subjects, the MSAL readiness flag, and the emissions made so
    far, oldest first. *)
Record AuthStore : Type := mkAuthStore {
  userProfileSubject : option UserProfile;
  isAuthenticatedSubject : bool;
  isLoadingSubject : bool;
  isMsalInitialized : bool;
  emitted : list Emission
}.

(** The field initialisers of the class. *)
Definition newAuthStore : AuthStore := mkAuthStore None false false false [].

Module Op.

(** A stateful computation on the store that may throw. *)
Definition t (A : Type) : Type := AuthStore -> Completion A * AuthStore.

Definition ret {A} (a : A) : t A := fun s => (Normal a, s).

Definition throw {A} (e : JsError) : t A := fun s => (Throw e, s).

Definition bind {A B} (m : t A) (k : A -> t B) : t B :=
  fun s =>
    match m s with
    | (Normal a, s') => k a s'
    | (Throw e, s') => (Throw e, s')
    end.

(** A pure computation that may throw, run inside an operation. *)
Definition lift {A} (c : Completion A) : t A := fun s => (c, s).

(** [try { body } catch (e) { handler(e) }] *)
Definition tryCatch {A} (body : t A) (handler : JsError -> t A) : t A :=
  fun s =>
    match body s with
    | (Normal a, s') => (Normal a, s')
    | (Throw e, s') => handler e s'
    end.

(** [try { body } finally { final }]: [final] always runs; when it ends
    normally the completion of [body] stands. *)
Definition tryFinally {A} (body : t A) (final : t unit) : t A :=
  fun s =>
    match body s with
    | (c, s') =>
        match final s' with
        | (Normal _, s'') => (c, s'')
        | (Throw e, s'') => (Throw e, s'')
        end
    end.

(** The store after running [m]. *)
Definition exec {A} (m : t A) (s : AuthStore) : AuthStore := snd (m s).

End Op.

Declare Scope op_scope.
Delimit Scope op_scope with op.
Notation "x <- m ;; k" := (Op.bind m (fun x => k))
  (at level 61, m at next level, right associativity) : op_scope.
Notation "m ;; k" := (Op.bind m (fun _ => k))
  (at level 61, right associativity) : op_scope.

(** [this.userProfileSubject.next(p)] *)
Definition userProfileSubject_next (p : option UserProfile) : Op.t unit :=
  fun s => (Normal tt,
            mkAuthStore p (isAuthenticatedSubject s) (isLoadingSubject s)
              (isMsalInitialized s) (emitted s ++ [EmitProfile p])).

(** [this.isAuthenticatedSubject.next(b)] *)
Definition isAuthenticatedSubject_next (b : bool) : Op.t unit :=
  fun s => (Normal tt,
            mkAuthStore (userProfileSubject s) b (isLoadingSubject s)
              (isMsalInitialized s) (emitted s ++ [EmitAuthenticated b])).

(** [this.isLoadingSubject.next(b)] *)
Definition isLoadingSubject_next (b : bool) : Op.t unit :=
  fun s => (Normal tt,
            mkAuthStore (userProfileSubject s) (isAuthenticatedSubject s) b
              (isMsalInitialized s) (emitted s ++ [EmitLoading b])).

(** [this.isMsalInitialized = b] *)
Definition set_isMsalInitialized (b : bool) : Op.t unit :=
  fun s => (Normal tt,
            mkAuthStore (userProfileSubject s) (isAuthenticatedSubject s)
              (isLoadingSubject s) b (emitted s)).

(* ================================================================ *)
(** ** Directory client *)

(** [GraphService.getMyProfile]: the response of [/me]; an error is logged
    and thrown again. *)
Definition getMyProfile (env : GraphEnv) : Completion (option GraphUser) :=
  match meResponse env with
  | Normal response => Normal response
  | Throw error => Throw error
  end.

(** The loop of [getMyGroupsAndRoles] over [response.value]: every element
    whose type is a group is pushed, with the roles read off its display
    name; [extractRolesFromGroup] calls [toLowerCase] on the display name and
    throws when the name is [null]. *)
Fixpoint collectGroups (groups : list AzureADGroup) (items : list DirectoryObject)
  : Completion (list AzureADGroup) :=
  match items with
  | [] => Normal groups
  | item :: rest =>
      if do_odataType item =? "#microsoft.graph.group" then
        match do_displayName item with
        | Some displayName =>
            collectGroups
              (groups ++ [mkAzureADGroup (do_id item) displayName
                            (do_description item)
                            (extractRolesFromGroup displayName)])
              rest
        | None => Throw TypeError
        end
      else collectGroups groups rest
  end.

(** [GraphService.getMyGroupsAndRoles]: any failure yields the empty list. *)
Definition getMyGroupsAndRoles (env : GraphEnv) : Completion (list AzureADGroup) :=
  match memberOfResponse env with
  | Normal (Some value) =>
      match collectGroups [] value with
      | Normal groups => Normal groups
      | Throw _ => Normal []
      end
  | Normal None => Normal []
  | Throw _ => Normal []
  end.

(* ================================================================ *)
(** ** Profile assembler *)

(** [account.idTokenClaims?.roles || []] *)
Definition claimRoles (a : Account) : list string :=
  match acc_idTokenClaims a with
  | Some claims =>
      match claim_roles claims with
      | Some r => r
      | None => []
      end
  | None => []
  end.

(** [account.idTokenClaims?.jobTitle] *)
Definition claimJobTitle (a : Account) : option string :=
  match acc_idTokenClaims a with
  | Some claims => claim_jobTitle claims
  | None => None
  end.

(** [account.idTokenClaims?.officeLocation] *)
Definition claimOfficeLocation (a : Account) : option string :=
  match acc_idTokenClaims a with
  | Some claims => claim_officeLocation claims
  | None => None
  end.

(** The object literal [basicProfile] of [loadUserProfile]. *)
Definition basicProfileOf (account : JsAccount) : Completion UserProfile :=
  match account with
  | None => Throw TypeError
  | Some a =>
      Normal (mkUserProfile
                (Js.strOr (acc_name a) "User")
                (Js.strOr (acc_username a) "")
                (Js.strOr (acc_username a) "")
                (claimRoles a)
                []
                (claimJobTitle a)
                (claimOfficeLocation a)
                None
                (initializePermissions []))
  end.

(** The object literal [fullProfile]. *)
Definition fullProfileOf (basicProfile : UserProfile) (graphProfile : GraphUser)
    (groups : list AzureADGroup) (uniqueRoles : list string) : UserProfile :=
  mkUserProfile
    (name basicProfile)
    (email basicProfile)
    (username basicProfile)
    uniqueRoles
    groups
    (Js.optOr (gu_jobTitle graphProfile) (jobTitle basicProfile))
    (Js.optOr (gu_officeLocation graphProfile) (officeLocation basicProfile))
    (Some graphProfile)
    (calculatePermissions uniqueRoles).

(** The object literal [fallbackProfile]. *)
Definition fallbackProfileOf (basicProfile : UserProfile) : UserProfile :=
  mkUserProfile
    (name basicProfile)
    (email basicProfile)
    (username basicProfile)
    (roles basicProfile)
    (groups basicProfile)
    (jobTitle basicProfile)
    (officeLocation basicProfile)
    (graphProfile basicProfile)
    (calculatePermissions (roles basicProfile)).

(** The object literal [errorProfile]. *)
Definition errorProfile : UserProfile :=
  mkUserProfile "User" "" "" ["User"] [] None None None
    (calculatePermissions ["User"]).

(** Reading [graphProfile.jobTitle] throws when the response was [null]. *)
Definition derefGraphProfile (graphProfile : option GraphUser)
  : Completion GraphUser :=
  match graphProfile with
  | Some g => Normal g
  | None => Throw TypeError
  end.

Section ProfileAssembler.
Local Open Scope op_scope.

(** The inner [try]/[catch] of [loadUserProfile] (lines 88-128). *)
Definition enrich (basicProfile : UserProfile) (env : GraphEnv) : Op.t unit :=
  Op.tryCatch
    (graphProfile <- Op.lift (getMyProfile env) ;;
     groups <- Op.lift (getMyGroupsAndRoles env) ;;
     let allRoles := roles basicProfile ++ flat_map grp_roles groups in
     let uniqueRoles := Js.unique allRoles in
     g <- Op.lift (derefGraphProfile graphProfile) ;;
     userProfileSubject_next
       (Some (fullProfileOf basicProfile g groups uniqueRoles)))
    (fun graphError =>
       userProfileSubject_next (Some (fallbackProfileOf basicProfile))).

(** The outer [catch] block. *)
Definition publishErrorProfile (error : JsError) : Op.t unit :=
  userProfileSubject_next (Some errorProfile).

(** The [finally] block. *)
Definition releaseLoading : Op.t unit :=
  isLoadingSubject_next false ;; set_isMsalInitialized true.

(** [AuthService.loadUserProfile], run from its call to the settlement of
    its promise; the awaited directory answers are those of [env]. *)
Definition loadUserProfile (account : JsAccount) (env : GraphEnv) : Op.t unit :=
  isLoadingSubject_next true ;;
  Op.tryFinally
    (Op.tryCatch
       (basicProfile <- Op.lift (basicProfileOf account) ;;
        enrich basicProfile env)
       publishErrorProfile)
    releaseLoading.

(** The same function cut at its first [await].  [loadUserProfile_begin] is
    the synchronous part: it yields [Some basicProfile] when the function
    is suspended on the directory, and [None] when step 1 threw and the
    function has already run to its end. *)
Definition loadUserProfile_begin (account : JsAccount)
  : Op.t (option UserProfile) :=
  isLoadingSubject_next true ;;
  match basicProfileOf account with
  | Normal basicProfile => Op.ret (Some basicProfile)
  | Throw error =>
      Op.tryFinally (publishErrorProfile error) releaseLoading ;;
      Op.ret None
  end.

(** The part of [loadUserProfile] that runs once the directory answered. *)
Definition loadUserProfile_resume (basicProfile : UserProfile) (env : GraphEnv)
  : Op.t unit :=
  Op.tryFinally
    (Op.tryCatch (enrich basicProfile env) publishErrorProfile)
    releaseLoading.

End ProfileAssembler.

(* ================================================================ *)
(** ** Queries of the auth state store *)

(** [keyof UserProfile['permissions']] *)
Inductive PermissionKey : Type :=
| CanViewDashboard
| CanManageUsers
| CanSendEmails
| CanViewReports
| CanManageSettings.

(** [permissions[key]] *)
Definition permissionAt (p : Permissions) (key : PermissionKey) : bool :=
  match key with
  | CanViewDashboard => canViewDashboard p
  | CanManageUsers => canManageUsers p
  | CanSendEmails => canSendEmails p
  | CanViewReports => canViewReports p
  | CanManageSettings => canManageSettings p
  end.

(** [AuthService.hasRole] *)
Definition hasRole (s : AuthStore) (role : string) : bool :=
  match userProfileSubject s with
  | None => false
  | Some profile =>
      Js.some (fun userRole => Js.toLowerCase userRole =? Js.toLowerCase role)
        (roles profile)
  end.

(** [AuthService.hasAnyRole] *)
Definition hasAnyRole (s : AuthStore) (roles0 : list string) : bool :=
  match userProfileSubject s with
  | None => false
  | Some profile =>
      Js.some
        (fun role =>
           Js.some (fun userRole => Js.toLowerCase userRole =? Js.toLowerCase role)
             (roles profile))
        roles0
  end.

(** [AuthService.hasPermission] *)
Definition hasPermission (s : AuthStore) (permission : PermissionKey) : bool :=
  match userProfileSubject s with
  | None => false
  | Some profile => permissionAt (permissions profile) permission
  end.

(** [const roleHierarchy] *)
Definition roleHierarchy : list string := ["Admin"; "Editor"; "Viewer"; "User"].

(** [AuthService.getHighestRole] *)
Definition getHighestRole (s : AuthStore) : string :=
  match userProfileSubject s with
  | None => "User"
  | Some profile =>
      if (length (roles profile) =? 0)%nat then "User"
      else
        match find (fun role => Js.arrayIncludes (roles profile) role)
                roleHierarchy with
        | Some role => role
        | None => Js.strOr (nth_error (roles profile) 0) "User"
        end
  end.

(** [AuthService.getCurrentUser] *)
Definition getCurrentUser (s : AuthStore) : option UserProfile :=
  userProfileSubject s.

(** [AuthService.isAuthenticated] *)
Definition isAuthenticated (s : AuthStore) : bool := isAuthenticatedSubject s.

(** [AuthService.getPermissions]: [None] is [null]. *)
Definition getPermissions (s : AuthStore) : option Permissions :=
  match userProfileSubject s with
  | Some profile => Some (permissions profile)
  | None => None
  end.

(** [AuthService.getRoles] *)
Definition getRoles (s : AuthStore) : list string :=
  match userProfileSubject s with
  | Some profile => roles profile
  | None => []
  end.

(* ================================================================ *)
(** ** Life cycle of the auth state store

    The service runs on one event loop.  A turn is a run of synchronous code
    up to the next suspension on the session provider or on the directory,
    together with the promise reactions that run before control returns to
    the event loop (the [.then] callback registered on [loadUserProfile] runs
    in the turn in which [loadUserProfile] finishes).  Between two turns the
    operations that are suspended are recorded as [Pending]. *)

Inductive Pending : Type :=
| AwaitInitialize                      (* login: [instance.initialize()] *)
| AwaitLoginPopup                      (* login: [loginPopup] *)
| AwaitLogoutPopup                     (* logout: [logoutPopup] *)
| AwaitGraph (basicProfile : UserProfile) (thenAuthenticate : bool).
                                       (* loadUserProfile: the directory *)

Record Config : Type := mkConfig {
  store : AuthStore;
  pending : list Pending
}.

(** What a collaborator answers to a suspended operation. *)
Inductive Response : Type :=
| InitializeResult (ok : bool)
| LoginPopupResult (accounts : option (list JsAccount))
| LogoutPopupResult (ok : bool)
| GraphResult (env : GraphEnv).

(** What starts a turn: a call of a public method, or the answer to the
    [i]-th suspended operation. *)
Inductive Event : Type :=
| CallLogin
| CallLogout
| CallReset
| CallRefreshUserProfile (accounts : Completion (list JsAccount))
| CallEnsureInitialized (ok : bool)
| Settle (i : nat) (r : Response).

Section Lifecycle.
Local Open Scope op_scope.

(** A call [loadUserProfile(account)] followed by the synchronous code
    [after] of the caller.  When [thenAuthenticate] is set the caller
    registered [.then(() => isAuthenticatedSubject.next(true))]; if the
    load ended without suspending, that reaction runs once [after] is
    done. *)
Definition startLoad (account : JsAccount) (thenAuthenticate : bool)
    (after : Op.t unit) (c : Config) : Config :=
  match loadUserProfile_begin account (store c) with
  | (Normal (Some basicProfile), s1) =>
      mkConfig (Op.exec after s1)
        (pending c ++ [AwaitGraph basicProfile thenAuthenticate])
  | (Normal None, s1) =>
      let s2 := Op.exec after s1 in
      mkConfig
        (if thenAuthenticate
         then Op.exec (isAuthenticatedSubject_next true) s2 else s2)
        (pending c)
  | (Throw _, s1) => mkConfig (Op.exec after s1) (pending c)
  end.

(** [AuthService.initializeAuth]; [accounts] is what [getAllAccounts()]
    gives, or the error it throws while MSAL is not ready. *)
Definition initializeAuth (accounts : Completion (list JsAccount))
    (c : Config) : Config :=
  match accounts with
  | Normal (account0 :: _) =>
      startLoad account0 true (set_isMsalInitialized true) c
  | Normal [] =>
      mkConfig (Op.exec (set_isMsalInitialized true) (store c)) (pending c)
  | Throw _ => c
  end.

(** The constructor. *)
Definition construct (accounts : Completion (list JsAccount)) : Config :=
  initializeAuth accounts (mkConfig newAuthStore []).

(** [AuthService.login], up to its first suspension. *)
Definition login (c : Config) : Config :=
  let s1 := Op.exec (isLoadingSubject_next true) (store c) in
  mkConfig s1
    (pending c ++
     [if isMsalInitialized s1 then AwaitLoginPopup else AwaitInitialize]).

(** The callback of [ensureMSALInitialized().then] in [login]. *)
Definition loginInitialized (ok : bool) (c : Config) : Config :=
  if ok then
    mkConfig (Op.exec (set_isMsalInitialized true) (store c))
      (pending c ++ [AwaitLoginPopup])
  else
    mkConfig (Op.exec (isLoadingSubject_next false) (store c)) (pending c).

(** The observer of [loginPopup] in [login]: [Some accounts] for [next],
    with the accounts then in the cache, [None] for [error]. *)
Definition loginPopupDone (accounts : option (list JsAccount)) (c : Config)
  : Config :=
  match accounts with
  | Some (account0 :: _) =>
      startLoad account0 true (isLoadingSubject_next false) c
  | Some [] =>
      mkConfig (Op.exec (isLoadingSubject_next false) (store c)) (pending c)
  | None =>
      mkConfig (Op.exec (isLoadingSubject_next false) (store c)) (pending c)
  end.

(** [AuthService.logout], up to its suspension on [logoutPopup]. *)
Definition logout (c : Config) : Config :=
  mkConfig (Op.exec (isLoadingSubject_next true) (store c))
    (pending c ++ [AwaitLogoutPopup]).

(** The observer of [logoutPopup] in [logout]. *)
Definition logoutPopupDone (ok : bool) (c : Config) : Config :=
  if ok then
    mkConfig
      (Op.exec (userProfileSubject_next None ;;
                isAuthenticatedSubject_next false ;;
                isLoadingSubject_next false) (store c))
      (pending c)
  else
    mkConfig (Op.exec (isLoadingSubject_next false) (store c)) (pending c).

(** [AuthService.reset] *)
Definition reset (c : Config) : Config :=
  mkConfig
    (Op.exec (userProfileSubject_next None ;;
              isAuthenticatedSubject_next false ;;
              isLoadingSubject_next false ;;
              set_isMsalInitialized false) (store c))
    (pending c).

(** [AuthService.refreshUserProfile], up to its suspension. *)
Definition refreshUserProfile (accounts : Completion (list JsAccount))
    (c : Config) : Config :=
  match accounts with
  | Normal (account0 :: _) => startLoad account0 false (Op.ret tt) c
  | Normal [] => c
  | Throw _ => c
  end.

(** The effect of [ensureMSALInitialized] on the store ([getAccessToken]
    calls it, also on behalf of the directory client). *)
Definition ensureMSALInitialized (ok : bool) (c : Config) : Config :=
  if isMsalInitialized (store c) then c
  else if ok then
    mkConfig (Op.exec (set_isMsalInitialized true) (store c)) (pending c)
  else c.

(** The end of a suspended [loadUserProfile], and the [.then] reaction of
    its caller. *)
Definition graphDone (basicProfile : UserProfile) (thenAuthenticate : bool)
    (env : GraphEnv) (c : Config) : Config :=
  match loadUserProfile_resume basicProfile env (store c) with
  | (Normal _, s1) =>
      mkConfig
        (if thenAuthenticate
         then Op.exec (isAuthenticatedSubject_next true) s1 else s1)
        (pending c)
  | (Throw _, s1) => mkConfig s1 (pending c)
  end.

(** The pending list without its [i]-th entry. *)
Definition dropNth {A} (i : nat) (l : list A) : list A :=
  firstn i l ++ skipn (S i) l.

(** One turn.  [None]: the event cannot happen in [c] (no such suspended
    operation, or an answer of the wrong kind). *)
Definition fire (e : Event) (c : Config) : option Config :=
  match e with
  | CallLogin => Some (login c)
  | CallLogout => Some (logout c)
  | CallReset => Some (reset c)
  | CallRefreshUserProfile accounts => Some (refreshUserProfile accounts c)
  | CallEnsureInitialized ok => Some (ensureMSALInitialized ok c)
  | Settle i r =>
      let c' := mkConfig (store c) (dropNth i (pending c)) in
      match nth_error (pending c) i, r with
      | Some AwaitInitialize, InitializeResult ok =>
          Some (loginInitialized ok c')
      | Some AwaitLoginPopup, LoginPopupResult accounts =>
          Some (loginPopupDone accounts c')
      | Some AwaitLogoutPopup, LogoutPopupResult ok =>
          Some (logoutPopupDone ok c')
      | Some (AwaitGraph basicProfile thenAuthenticate), GraphResult env =>
          Some (graphDone basicProfile thenAuthenticate env c')
      | _, _ => None
      end
  end.

(** A sequence of turns. *)
Fixpoint fireAll (es : list Event) (c : Config) : option Config :=
  match es with
  | [] => Some c
  | e :: rest =>
      match fire e c with
      | Some c' => fireAll rest c'
      | None => None
      end
  end.

End Lifecycle.

(** The configurations the service can be in at the end of a turn. *)
Inductive Reachable : Config -> Prop :=
| Reachable_construct (accounts : Completion (list JsAccount)) :
    Reachable (construct accounts)
| Reachable_fire (c c' : Config) (e : Event) :
    Reachable c -> fire e c = Some c' -> Reachable c'.

(* ================================================================ *)
(** ** The role deriver as the specification words it

    These definitions follow the text of the specification, not the code;
    they are compared with the code below. *)

(** What one role grants: the exact names first, and for any other name the
    substring rules. *)
Definition specGrants (role : string) : Permissions :=
  let r := Js.toLowerCase role in
  if (r =? "admin") || (r =? "administrator") then
    mkPermissions true true true true true
  else if r =? "editor" then mkPermissions true false true true false
  else if r =? "viewer" then mkPermissions true false false true false
  else if r =? "user" then mkPermissions true false false false false
  else
    mkPermissions false
      (Js.includes r "admin")
      (Js.includes r "editor" || Js.includes r "write")
      (Js.includes r "view" || Js.includes r "read")
      (Js.includes r "admin").

(** Some role of the list grants the permission [flag]. *)
Definition anyGrants (flag : Permissions -> bool) (roles0 : list string) : bool :=
  existsb (fun role => flag (specGrants role)) roles0.

(** The permissions of a role list: every flag starts false and is turned on
    by any role that grants it; at the end the dashboard is forced on when
    any flag is on. *)
Definition specPermissions (roles0 : list string) : Permissions :=
  let vd := anyGrants canViewDashboard roles0 in
  let mu := anyGrants canManageUsers roles0 in
  let se := anyGrants canSendEmails roles0 in
  let vr := anyGrants canViewReports roles0 in
  let ms := anyGrants canManageSettings roles0 in
  mkPermissions (if vd || mu || se || vr || ms then true else vd) mu se vr ms.

(** A case-insensitive occurrence of [word] in [groupName]. *)
Definition containsIgnoreCase (groupName word : string) : Prop :=
  exists pre mid post,
    groupName = (pre ++ mid ++ post)%string /\ Js.eqIgnoreCase mid word = true.

(** Field-wise disjunction of two permission records. *)
Definition permOr (p q : Permissions) : Permissions :=
  mkPermissions
    (canViewDashboard p || canViewDashboard q)
    (canManageUsers p || canManageUsers q)
    (canSendEmails p || canSendEmails q)
    (canViewReports p || canViewReports q)
    (canManageSettings p || canManageSettings q).

(** The flags granted by some role of the list. *)
Definition grantedBy (roles0 : list string) : Permissions :=
  mkPermissions
    (anyGrants canViewDashboard roles0)
    (anyGrants canManageUsers roles0)
    (anyGrants canSendEmails roles0)
    (anyGrants canViewReports roles0)
    (anyGrants canManageSettings roles0).

(* ================================================================ *)
(** ** Sample data *)

Definition adminAccount : Account :=
  mkAccount (Some "Ada") (Some "ada@contoso.example")
    (Some (mkIdTokenClaims (Some ["Admin"]) None None)).

Definition editorAccount : Account :=
  mkAccount (Some "Eve") (Some "eve@contoso.example")
    (Some (mkIdTokenClaims (Some ["Editor"]) None None)).

Definition userAccount : Account :=
  mkAccount (Some "Uma") (Some "uma@contoso.example")
    (Some (mkIdTokenClaims (Some ["User"]) None None)).

(** The directory is unreachable. *)
Definition graphDown : GraphEnv :=
  mkGraphEnv (Throw (ProviderError "network")) (Throw (ProviderError "network")).

(** The directory answers, with one group "AdminTeam". *)
Definition graphAdminTeam : GraphEnv :=
  mkGraphEnv
    (Normal (Some (mkGraphUser "1" "Uma" "uma@contoso.example"
                     "uma@contoso.example" (Some "Engineer") None)))
    (Normal (Some [mkDirectoryObject "#microsoft.graph.group" "g1"
                     (Some "AdminTeam") None])).

(** A store holding a profile with the given roles. *)
Definition storeWithRoles (roles0 : list string) : AuthStore :=
  mkAuthStore
    (Some (mkUserProfile "Uma" "" "" roles0 [] None None None
             (calculatePermissions roles0)))
    true false true [].


(* ================================================================ *)
(** ** What a profile load publishes *)

(** The profile published by the inner [try]/[catch]: the full profile when
    the directory answered with a user record, the basic profile with
    recomputed permissions otherwise. *)
Definition enrichedProfile (basicProfile : UserProfile) (env : GraphEnv)
  : UserProfile :=
  match getMyProfile env, getMyGroupsAndRoles env with
  | Normal (Some g), Normal groups0 =>
      fullProfileOf basicProfile g groups0
        (Js.unique (roles basicProfile ++ flat_map grp_roles groups0))
  | _, _ => fallbackProfileOf basicProfile
  end.

(** The profile published by a whole run of [loadUserProfile]. *)
Definition loadedProfile (account : JsAccount) (env : GraphEnv) : UserProfile :=
  match basicProfileOf account with
  | Normal basicProfile => enrichedProfile basicProfile env
  | Throw _ => errorProfile
  end.


(** An operation that leaves the profile and the authenticated flag alone. *)
Definition Quiet (m : Op.t unit) : Prop :=
  forall s : AuthStore,
    userProfileSubject (Op.exec m s) = userProfileSubject s /\
    isAuthenticatedSubject (Op.exec m s) = isAuthenticatedSubject s.

(** The invariant of the auth state: an authenticated store has a profile. *)
Definition AuthenticatedHasProfile (s : AuthStore) : Prop :=
  isAuthenticatedSubject s = true -> userProfileSubject s <> None.

(** A session: a cached account at start-up, whose profile load completes
    with the directory's answer. *)
Definition sessionAtStartup : option Config :=
  fireAll [Settle 0 (GraphResult graphAdminTeam)]
    (construct (Normal [Some userAccount])).

(** A refresh of the profile on a service that started without an account
    and never logged in. *)
Definition refreshWithoutLogin : option Config :=
  fireAll [CallRefreshUserProfile (Normal [Some userAccount]);
           Settle 0 (GraphResult graphDown)]
    (construct (Normal [])).


(* ================================================================ *)
(** ** Auxiliary notions for the properties of the services *)

(** The lower-cased role is "admin" or "administrator". *)
Definition isAdminName (role : string) : bool :=
  (Js.toLowerCase role =? "admin") || (Js.toLowerCase role =? "administrator").

(** The lower-cased role contains [word]. *)
Definition mentions (word role : string) : bool :=
  Js.includes (Js.toLowerCase role) word.

(** The test of [getMyGroupsAndRoles] on an element of the response. *)
Definition isGroupItem (item : DirectoryObject) : bool :=
  do_odataType item =? "#microsoft.graph.group".

(** The groups of a [memberOf] response all of whose group elements carry a
    display name: one group per group element, in the order of the
    response. *)
Definition groupsOfItems (items : list DirectoryObject) : list AzureADGroup :=
  flat_map
    (fun item =>
       if isGroupItem item then
         match do_displayName item with
         | Some displayName =>
             [mkAzureADGroup (do_id item) displayName (do_description item)
                (extractRolesFromGroup displayName)]
         | None => []
         end
       else [])
    items.

(** A group element without display name. *)
Definition unnamedGroup (item : DirectoryObject) : bool :=
  isGroupItem item &&
  match do_displayName item with Some _ => false | None => true end.

(** The answers that stand for a failed or empty-handed collaborator:
    [initialize] rejected, the login popup failed or left no account in the
    cache, the logout popup failed. *)
Definition isFailure (r : Response) : bool :=
  match r with
  | InitializeResult ok => negb ok
  | LoginPopupResult None => true
  | LoginPopupResult (Some []) => true
  | LoginPopupResult (Some (_ :: _)) => false
  | LogoutPopupResult ok => negb ok
  | GraphResult _ => false
  end.

(** A directory item that is a group named "Editors". *)
Definition editorsItem : DirectoryObject :=
  mkDirectoryObject "#microsoft.graph.group" "g2" (Some "Editors") None.

(** A directory item that is not a group. *)
Definition roleItem : DirectoryObject :=
  mkDirectoryObject "#microsoft.graph.directoryRole" "r1" (Some "Admins") None.


(** The stored profile carries the permissions of its own roles. *)
Definition DerivedPermissions (s : AuthStore) : Prop :=
  forall p : UserProfile,
    userProfileSubject s = Some p ->
    permissions p = calculatePermissions (roles p).

(** Nothing is suspended only when the loading flag is off. *)
Definition Idle (c : Config) : Prop :=
  pending c = [] -> isLoadingSubject (store c) = false.

(** An operation that does not turn the loading flag on. *)
Definition KeepsLoadingOff (m : Op.t unit) : Prop :=
  forall s : AuthStore,
    isLoadingSubject s = false -> isLoadingSubject (Op.exec m s) = false.

(** A login whose popup succeeded and whose profile load is still waiting
    for the directory. *)
Definition loginInFlight : option Config :=
  fireAll [CallLogin; Settle 0 (LoginPopupResult (Some [Some editorAccount]))]
    (construct (Normal [])).

(* ================================================================ *)
(** ** Route guards (role.guard.ts, permission.guard.ts) *)

(** The key of [UserProfile['permissions']] written [name], if any. *)
Definition permissionKeyOf (name : string) : option PermissionKey :=
  if name =? "canViewDashboard" then Some CanViewDashboard
  else if name =? "canManageUsers" then Some CanManageUsers
  else if name =? "canSendEmails" then Some CanSendEmails
  else if name =? "canViewReports" then Some CanViewReports
  else if name =? "canManageSettings" then Some CanManageSettings
  else None.

(** What a guard does besides answering. *)
Inductive GuardEffect : Type :=
| Navigate (path : string)                 (* [router.navigate([path])] *)
| SetItem (key value : string).            (* [localStorage.setItem] *)

(** [route.data] as the permission guard reads it. *)
Record RouteData : Type := mkRouteData {
  rd_permission : option string;
  rd_redirectTo : option string
}.

Section GuardModel.

(** The guards pass a route's string to [hasPermission] through [as any].
    For a name that is not one of the five keys, [permissions[name]] is
    whatever the plain object inherits under that name; [inherited name]
    says whether that value counts as true in a condition. *)
Variable inherited : string -> bool.

(** [authService.hasPermission(name as any)] used as a condition. *)
Definition hasPermissionNamed (s : AuthStore) (name : string) : bool :=
  match userProfileSubject s with
  | None => false
  | Some profile =>
      match permissionKeyOf name with
      | Some key => permissionAt (permissions profile) key
      | None => inherited name
      end
  end.

(** [roleGuard(allowedRoles)()] of role.guard.ts *)
Definition roleGuard (allowedRoles : list string) (s : AuthStore)
  : bool * list GuardEffect :=
  if hasAnyRole s allowedRoles then (true, [])
  else (false, [Navigate "/unauthorized"]).

(** [permissionGuard(requiredPermission)()] of role.guard.ts *)
Definition rolePermissionGuard (requiredPermission : string) (s : AuthStore)
  : bool * list GuardEffect :=
  if hasPermissionNamed s requiredPermission then (true, [])
  else (false, [Navigate "/unauthorized"]).

(** [permissionGuard(route, state)] of permission.guard.ts; [data] is
    [route.data] and [url] is [state.url]. *)
Definition permissionGuard (data : option RouteData) (url : string)
    (s : AuthStore) : bool * list GuardEffect :=
  let requiredPermission :=
    match data with Some d => rd_permission d | None => None end in
  let redirectTo :=
    Js.strOr (match data with Some d => rd_redirectTo d | None => None end)
      "/unauthorized" in
  if match requiredPermission with
     | Some name => negb (name =? "") && hasPermissionNamed s name
     | None => false
     end
  then (true, [])
  else
    (false,
     (if negb (redirectTo =? "/login")
      then [SetItem "redirectAfterLogin" url] else []) ++
     [Navigate redirectTo]).

End GuardModel.

(** The [data] of [withPermission(permission, redirectTo)]; [None] for the
    second argument is the call without it. *)
Definition withPermission (permission : string) (redirectTo : option string)
  : RouteData :=
  mkRouteData (Some permission)
    (Some match redirectTo with Some r => r | None => "/unauthorized" end).

(* ================================================================ *)
(** ** Token acquisition ([AuthService.getAccessToken]) and the directory
    client's cache ([GraphService.getAuthenticatedClient]) *)

(** What MSAL answers during one token acquisition: whether
    [instance.initialize()] resolves, the cached accounts, and the access
    token of the silent and of the popup request ([None]: no response or no
    token in it). *)
Record MsalEnv : Type := mkMsalEnv {
  initializeOk : bool;
  cachedAccounts : list JsAccount;
  silentToken : Completion (option string);
  popupToken : Completion (option string)
}.

(** The requests made to MSAL. *)
Inductive MsalCall : Type :=
| MsalInitialize
| MsalAcquireTokenSilent
| MsalAcquireTokenPopup.

(** [new Error(message)] *)
Definition newError (message : string) : JsError := ProviderError message.

(** [if (!response?.accessToken) throw new Error(missing); return
    response.accessToken] after an awaited token request. *)
Definition accessTokenOf (response : Completion (option string))
    (missing : string) : Completion string :=
  match response with
  | Normal (Some token) =>
      if token =? "" then Throw (newError missing) else Normal token
  | Normal None => Throw (newError missing)
  | Throw e => Throw e
  end.

(** [AuthService.ensureMSALInitialized], with the requests it makes. *)
Definition ensureMSALInitialized_run (env : MsalEnv) (s : AuthStore)
  : (bool * list MsalCall) * AuthStore :=
  if isMsalInitialized s then ((true, []), s)
  else if initializeOk env then
    ((true, [MsalInitialize]), Op.exec (set_isMsalInitialized true) s)
  else ((false, [MsalInitialize]), s).

(** [AuthService.getAccessToken]: its completion, the requests made to MSAL
    in order, and the store it leaves. *)
Definition getAccessToken (env : MsalEnv) (s : AuthStore)
  : (Completion string * list MsalCall) * AuthStore :=
  match ensureMSALInitialized_run env s with
  | ((false, calls0), s1) =>
      ((Throw (newError "MSAL not initialized"), calls0), s1)
  | ((true, calls0), s1) =>
      let silent :=
        match cachedAccounts env with
        | [] => (Throw (newError "No user account found"), [])
        | _ :: _ =>
            (accessTokenOf (silentToken env) "No access token received",
             [MsalAcquireTokenSilent])
        end in
      match fst silent with
      | Normal token => ((Normal token, calls0 ++ snd silent), s1)
      | Throw _ =>
          ((accessTokenOf (popupToken env)
              "No access token received from popup",
            calls0 ++ snd silent ++ [MsalAcquireTokenPopup]), s1)
      end
  end.



(** MSAL without cached account whose popup yields "tok-2". *)
Definition msalPopup : MsalEnv :=
  mkMsalEnv true [] (Throw TypeError) (Normal (Some "tok-2")).

(** The silent request is made and yields a token that is not empty. *)
Definition silentDelivers (env : MsalEnv) : bool :=
  match cachedAccounts env with
  | [] => false
  | _ :: _ =>
      match silentToken env with
      | Normal (Some token) => negb (token =? "")
      | _ => false
      end
  end.

(** For the examples: a permissions object that inherits nothing. *)
Definition inheritsNothing (name : string) : bool := false.

(* ================================================================ *)
(** ** More string primitives *)

Module JsText.

(** White space of [trim] within ASCII: tab, line feed, vertical tab, form
    feed, carriage return (9..13) and space (32). *)
Definition isWhiteSpace (c : ascii) : bool :=
  let n := nat_of_ascii c in
  (((9 <=? n) && (n <=? 13)) || (n =? 32))%nat.

(** [s.trimStart()] *)
Fixpoint trimStart (s : string) : string :=
  match s with
  | EmptyString => EmptyString
  | String c t => if isWhiteSpace c then trimStart t else s
  end.

(** [s.trimEnd()] *)
Fixpoint trimEnd (s : string) : string :=
  match s with
  | EmptyString => EmptyString
  | String c t =>
      match trimEnd t with
      | EmptyString => if isWhiteSpace c then EmptyString else String c EmptyString
      | String d t' => String c (String d t')
      end
  end.

(** [s.trim()] *)
Definition trim (s : string) : string := trimEnd (trimStart s).

(** [s.split(sep)] for a separator of one character. *)
Fixpoint split (sep : ascii) (s : string) : list string :=
  match s with
  | EmptyString => [EmptyString]
  | String c t =>
      if Ascii.eqb c sep then EmptyString :: split sep t
      else
        match split sep t with
        | piece :: pieces => String c piece :: pieces
        | [] => [String c EmptyString]
        end
  end.

(** [n.toString()] for a natural number. *)
Definition natToString (n : nat) : string :=
  DecimalString.NilEmpty.string_of_uint (Nat.to_uint n).

End JsText.

(* ================================================================ *)
(** ** Component operations: a state of their own, exceptions, requests *)

Module Task.
Section WithState.
Context {S : Type}.

(** A computation on a component's state that may throw. *)
Definition t (A : Type) : Type := S -> Completion A * S.

Definition ret {A} (a : A) : t A := fun d => (Normal a, d).

Definition bind {A B} (m : t A) (k : A -> t B) : t B :=
  fun d =>
    match m d with
    | (Normal a, d') => k a d'
    | (Throw e, d') => (Throw e, d')
    end.

Definition lift {A} (c : Completion A) : t A := fun d => (c, d).

(** [try { body } catch (e) { handler(e) }] *)
Definition tryCatch {A} (body : t A) (handler : JsError -> t A) : t A :=
  fun d =>
    match body d with
    | (Normal a, d') => (Normal a, d')
    | (Throw e, d') => handler e d'
    end.

(** [try { body } finally { final }] *)
Definition tryFinally {A} (body : t A) (final : t unit) : t A :=
  fun d =>
    match body d with
    | (c, d') =>
        match final d' with
        | (Normal _, d'') => (c, d'')
        | (Throw e, d'') => (Throw e, d'')
        end
    end.

(** A statement that only changes the state. *)
Definition modify (f : S -> S) : t unit := fun d => (Normal tt, f d).

End WithState.
End Task.

Declare Scope task_scope.
Delimit Scope task_scope with task.
Notation "x <- m ;; k" := (Task.bind m (fun x => k))
  (at level 61, m at next level, right associativity) : task_scope.
Notation "m ;; k" := (Task.bind m (fun _ => k))
  (at level 61, right associativity) : task_scope.

(* ================================================================ *)
(** ** Dashboard component (dashboard.component.ts) *)

Record GraphMessage : Type := mkGraphMessage {
  msg_id : string;
  msg_subject : string
}.

Record GraphEvent : Type := mkGraphEvent {
  evt_id : string;
  evt_subject : string
}.

Record GraphFile : Type := mkGraphFile {
  file_id : string;
  file_name : string
}.

(** ['text' | 'html'] *)
Inductive ContentType : Type := Text | Html.

(** The field [newEmail]. *)
Record NewEmail : Type := mkNewEmail {
  em_to : string;
  em_subject : string;
  em_body : string;
  em_type : ContentType
}.

(** The field [stats]. *)
Record Stats : Type := mkStats {
  totalMessages : nat;
  totalEvents : nat;
  totalFiles : nat;
  totalUsers : nat
}.

(** The calls the dashboard makes on [GraphService]. *)
Inductive GraphCall : Type :=
| GetMyMessages (limit : nat)
| GetMyEvents (limit : nat)
| GetMyFiles (limit : nat)
| GetAllUsers
| SendEmail (toRecipients : list string) (subject body : string)
    (contentType : ContentType).

(** The [alert] dialogs of [sendEmail]. *)
Inductive Alert : Type :=
| AlertFillFields              (* 'Please fill all email fields' *)
| AlertSent                    (* 'Email sent successfully!' *)
| AlertFailed (error : JsError). (* 'Failed to send email: ' + message *)

(** The component's fields, with the calls made on the directory client
    and the alerts shown so far, oldest first. *)
Record Dashboard : Type := mkDashboard {
  d_userProfile : option UserProfile;
  d_isLoading : bool;
  d_messages : list GraphMessage;
  d_events : list GraphEvent;
  d_files : list GraphFile;
  d_allUsers : list GraphUser;
  d_newEmail : NewEmail;
  d_stats : Stats;
  d_requests : list GraphCall;
  d_alerts : list Alert
}.

(** What the directory answers to the dashboard's requests: the [value] of
    each collection response, or the error of the request. *)
Record DataEnv : Type := mkDataEnv {
  messagesResponse : Completion (list GraphMessage);
  eventsResponse : Completion (list GraphEvent);
  filesResponse : Completion (list GraphFile);
  usersResponse : Completion (list GraphUser);
  sendMailResponse : Completion unit
}.

(** [GraphService.getMyMessages], [getMyEvents], [getMyFiles]: the error is
    logged and thrown again. *)
Definition getMyMessages (env : DataEnv) : Completion (list GraphMessage) :=
  match messagesResponse env with
  | Normal value => Normal value
  | Throw error => Throw error
  end.

Definition getMyEvents (env : DataEnv) : Completion (list GraphEvent) :=
  match eventsResponse env with
  | Normal value => Normal value
  | Throw error => Throw error
  end.

Definition getMyFiles (env : DataEnv) : Completion (list GraphFile) :=
  match filesResponse env with
  | Normal value => Normal value
  | Throw error => Throw error
  end.

(** The users [getAllUsers] returns when its request fails. *)
Definition demoUsers : list GraphUser :=
  [mkGraphUser "1" "Demo Admin User" "admin@demo.com" "admin@demo.com"
     (Some "System Administrator") None;
   mkGraphUser "2" "Demo Editor User" "editor@demo.com" "editor@demo.com"
     (Some "Content Editor") None;
   mkGraphUser "3" "Demo Viewer User" "viewer@demo.com" "viewer@demo.com"
     (Some "Content Viewer") None].

(** [GraphService.getAllUsers] *)
Definition getAllUsers (env : DataEnv) : Completion (list GraphUser) :=
  match usersResponse env with
  | Normal value => Normal value
  | Throw _ => Normal demoUsers
  end.

(** [GraphService.sendEmail]: a failure is logged, not thrown. *)
Definition graphSendEmail (env : DataEnv) : Completion unit :=
  match sendMailResponse env with
  | Normal _ => Normal tt
  | Throw _ => Normal tt
  end.

Definition d_set_isLoading (b : bool) (d : Dashboard) : Dashboard :=
  mkDashboard (d_userProfile d) b (d_messages d) (d_events d) (d_files d)
    (d_allUsers d) (d_newEmail d) (d_stats d) (d_requests d) (d_alerts d).

Definition d_set_messages (v : list GraphMessage) (d : Dashboard) : Dashboard :=
  mkDashboard (d_userProfile d) (d_isLoading d) v (d_events d) (d_files d)
    (d_allUsers d) (d_newEmail d) (d_stats d) (d_requests d) (d_alerts d).

Definition d_set_events (v : list GraphEvent) (d : Dashboard) : Dashboard :=
  mkDashboard (d_userProfile d) (d_isLoading d) (d_messages d) v (d_files d)
    (d_allUsers d) (d_newEmail d) (d_stats d) (d_requests d) (d_alerts d).

Definition d_set_files (v : list GraphFile) (d : Dashboard) : Dashboard :=
  mkDashboard (d_userProfile d) (d_isLoading d) (d_messages d) (d_events d) v
    (d_allUsers d) (d_newEmail d) (d_stats d) (d_requests d) (d_alerts d).

Definition d_set_allUsers (v : list GraphUser) (d : Dashboard) : Dashboard :=
  mkDashboard (d_userProfile d) (d_isLoading d) (d_messages d) (d_events d)
    (d_files d) v (d_newEmail d) (d_stats d) (d_requests d) (d_alerts d).

Definition d_set_newEmail (v : NewEmail) (d : Dashboard) : Dashboard :=
  mkDashboard (d_userProfile d) (d_isLoading d) (d_messages d) (d_events d)
    (d_files d) (d_allUsers d) v (d_stats d) (d_requests d) (d_alerts d).

Definition d_set_stats (v : Stats) (d : Dashboard) : Dashboard :=
  mkDashboard (d_userProfile d) (d_isLoading d) (d_messages d) (d_events d)
    (d_files d) (d_allUsers d) (d_newEmail d) v (d_requests d) (d_alerts d).

(** A call on the directory client is recorded when it is made. *)
Definition d_request (call : GraphCall) (d : Dashboard) : Dashboard :=
  mkDashboard (d_userProfile d) (d_isLoading d) (d_messages d) (d_events d)
    (d_files d) (d_allUsers d) (d_newEmail d) (d_stats d)
    (d_requests d ++ [call]) (d_alerts d).

(** [alert(...)] *)
Definition d_alert (a : Alert) (d : Dashboard) : Dashboard :=
  mkDashboard (d_userProfile d) (d_isLoading d) (d_messages d) (d_events d)
    (d_files d) (d_allUsers d) (d_newEmail d) (d_stats d) (d_requests d)
    (d_alerts d ++ [a]).

Section DashboardComponent.
Local Open Scope task_scope.

(** [await this.graphService.m(...)]: the call, then its completion. *)
Definition awaitGraph {A} (call : GraphCall) (answer : Completion A)
  : Task.t (S := Dashboard) A :=
  Task.modify (d_request call) ;; Task.lift answer.

(** The [try] block of [loadUserData].  [s1] is the auth store when the
    function is called, [s2] the auth store when the files have arrived and
    [hasRole('Admin')] is evaluated. *)
Definition loadUserData_body (env : DataEnv) (s1 s2 : AuthStore)
  : Task.t (S := Dashboard) unit :=
  (if hasPermission s1 CanSendEmails then
     messages <- awaitGraph (GetMyMessages 5) (getMyMessages env) ;;
     Task.modify (d_set_messages messages) ;;
     Task.modify (fun d =>
       d_set_stats (mkStats (length (d_messages d)) (totalEvents (d_stats d))
                      (totalFiles (d_stats d)) (totalUsers (d_stats d))) d)
   else Task.ret tt) ;;
  events <- awaitGraph (GetMyEvents 5) (getMyEvents env) ;;
  Task.modify (d_set_events events) ;;
  Task.modify (fun d =>
    d_set_stats (mkStats (totalMessages (d_stats d)) (length (d_events d))
                   (totalFiles (d_stats d)) (totalUsers (d_stats d))) d) ;;
  files <- awaitGraph (GetMyFiles 5) (getMyFiles env) ;;
  Task.modify (d_set_files files) ;;
  Task.modify (fun d =>
    d_set_stats (mkStats (totalMessages (d_stats d)) (totalEvents (d_stats d))
                   (length (d_files d)) (totalUsers (d_stats d))) d) ;;
  (if hasRole s2 "Admin" then
     users <- awaitGraph GetAllUsers (getAllUsers env) ;;
     Task.modify (d_set_allUsers users) ;;
     Task.modify (fun d =>
       d_set_stats (mkStats (totalMessages (d_stats d)) (totalEvents (d_stats d))
                      (totalFiles (d_stats d)) (length (d_allUsers d))) d)
   else Task.ret tt).

(** [DashboardComponent.loadUserData] *)
Definition loadUserData (env : DataEnv) (s1 s2 : AuthStore)
  : Task.t (S := Dashboard) unit :=
  fun d =>
    match d_userProfile d with
    | None => (Normal tt, d)
    | Some _ =>
        (Task.modify (d_set_isLoading true) ;;
         Task.tryFinally
           (Task.tryCatch (loadUserData_body env s1 s2)
              (fun error => Task.ret tt))
           (Task.modify (d_set_isLoading false))) d
    end.

(** [DashboardComponent.resetEmailForm] *)
Definition resetEmailForm : Task.t (S := Dashboard) unit :=
  Task.modify (d_set_newEmail (mkNewEmail "" "" "" Text)).

(** [DashboardComponent.sendEmail] *)
Definition sendEmail (env : DataEnv) : Task.t (S := Dashboard) unit :=
  fun d =>
    let newEmail := d_newEmail d in
    if (em_to newEmail =? "") || (em_subject newEmail =? "") ||
       (em_body newEmail =? "") then
      Task.modify (d_alert AlertFillFields) d
    else
      (Task.modify (d_set_isLoading true) ;;
       Task.tryFinally
         (Task.tryCatch
            (let recipients :=
               map JsText.trim (JsText.split "," (em_to newEmail)) in
             awaitGraph
               (SendEmail recipients (em_subject newEmail) (em_body newEmail)
                  (em_type newEmail))
               (graphSendEmail env) ;;
             Task.modify (d_alert AlertSent) ;;
             resetEmailForm ;;
             messages <- awaitGraph (GetMyMessages 5) (getMyMessages env) ;;
             Task.modify (d_set_messages messages))
            (fun error => Task.modify (d_alert (AlertFailed error))))
         (Task.modify (d_set_isLoading false))) d.

End DashboardComponent.

(** A dashboard that has received the profile of an editor. *)
Definition editorDashboard : Dashboard :=
  mkDashboard
    (Some (mkUserProfile "Eve" "" "" ["Editor"] [] None None None
             (calculatePermissions ["Editor"])))
    false [] [] [] []
    (mkNewEmail "a@contoso.example, b@contoso.example" "Hello" "Hi all" Text)
    (mkStats 0 0 0 0) [] [].


(** The directory fails every request. *)
Definition dataDown : DataEnv :=
  mkDataEnv (Throw (ProviderError "network")) (Throw (ProviderError "network"))
    (Throw (ProviderError "network")) (Throw (ProviderError "network"))
    (Throw (ProviderError "network")).


(** The form of [sendEmail] is filled in. *)
Definition formFilled (e : NewEmail) : bool :=
  negb ((em_to e =? "") || (em_subject e =? "") || (em_body e =? "")).

(* ================================================================ *)
(** ** Reports component: [filterReports] *)

(** [interface Report], without the optional [data]. *)
Record Report : Type := mkReport {
  rep_id : string;
  rep_title : string;
  rep_description : string;
  rep_category : string;
  rep_frequency : string;
  rep_lastRun : string;
  rep_status : string
}.

(** [ReportsComponent.filterReports]: the new value of [filteredReports],
    from the fields [reports], [searchQuery], [selectedCategory] and
    [selectedStatus]. *)
Definition filterReports (reports : list Report)
    (searchQuery selectedCategory selectedStatus : string) : list Report :=
  let filtered := reports in
  let filtered :=
    if negb (JsText.trim searchQuery =? "") then
      let query := Js.toLowerCase searchQuery in
      filter (fun report =>
                Js.includes (Js.toLowerCase (rep_title report)) query ||
                Js.includes (Js.toLowerCase (rep_description report)) query)
        filtered
    else filtered in
  let filtered :=
    if negb (selectedCategory =? "all") then
      filter (fun report => rep_category report =? selectedCategory) filtered
    else filtered in
  let filtered :=
    if negb (selectedStatus =? "all") then
      filter (fun report => rep_status report =? selectedStatus) filtered
    else filtered in
  filtered.

(** A report passes the three filters. *)
Definition reportPasses (searchQuery selectedCategory selectedStatus : string)
    (report : Report) : bool :=
  ((JsText.trim searchQuery =? "") ||
   Js.includes (Js.toLowerCase (rep_title report)) (Js.toLowerCase searchQuery) ||
   Js.includes (Js.toLowerCase (rep_description report))
     (Js.toLowerCase searchQuery)) &&
  ((selectedCategory =? "all") || (rep_category report =? selectedCategory)) &&
  ((selectedStatus =? "all") || (rep_status report =? selectedStatus)).

(* ================================================================ *)
(** ** Admin panel: [addAuditLog] *)

(** [interface UserAction] *)
Record UserAction : Type := mkUserAction {
  ua_id : string;
  ua_action : string;
  ua_timestamp : string;
  ua_details : string
}.

(** [AdminPanelComponent.addAuditLog]: the new value of [auditLogs]; [now]
    is [new Date().toISOString()]. *)
Definition addAuditLog (now action details : string)
    (auditLogs : list UserAction) : list UserAction :=
  let newLog :=
    mkUserAction (JsText.natToString (length auditLogs + 1)) action now details in
  let auditLogs := newLog :: auditLogs in
  if (100 <? length auditLogs)%nat then firstn 100 auditLogs else auditLogs.

(** The number of occurrences of a character. *)
Fixpoint countChar (c : ascii) (s : string) : nat :=
  match s with
  | EmptyString => 0
  | String d t => (if Ascii.eqb d c then 1 else 0) + countChar c t
  end.

(** The string is empty or starts with a character that is not white
    space. *)
Definition startsClean (s : string) : Prop :=
  match s with
  | EmptyString => True
  | String c _ => JsText.isWhiteSpace c = false
  end.

(** The reports the component starts with, up to their dates. *)
Definition sampleReports : list Report :=
  [mkReport "1" "User Activity Report" "Daily user login and activity patterns"
     "users" "daily" "" "success";
   mkReport "2" "Security Audit Report"
     "Security events and failed login attempts" "security" "daily" ""
     "success";
   mkReport "5" "API Usage Report" "Microsoft Graph API call statistics"
     "performance" "weekly" "" "failed"].

(* ================================================================ *)
(** * Properties *)

(** ** Strings *)

Module JsFacts.
Import Js.

Lemma prefix_iff (sub s : string) :
  prefix sub s = true <-> exists post, s = (sub ++ post)%string.
Proof.
  revert s; induction sub as [|c sub IH]; intros s.
  - split; [intros _; exists s; reflexivity | intros _; destruct s; reflexivity].
  - destruct s as [|d s]; simpl.
    + split; [discriminate | intros [post H]; discriminate].
    + destruct (ascii_dec c d) as [->|Hne].
      * rewrite IH. split; intros [post H]; exists post.
        -- now rewrite H.
        -- now inversion H.
      * split; [discriminate | intros [post H]; congruence].
Qed.

Lemma includes_iff (s sub : string) :
  includes s sub = true <-> exists pre post, s = (pre ++ sub ++ post)%string.
Proof.
  induction s as [|c s IH]; cbn [includes].
  - rewrite prefix_iff. split.
    + intros [post H]. exists EmptyString, post. exact H.
    + intros [pre [post H]]. destruct pre; simpl in H.
      * exists post. exact H.
      * discriminate.
  - rewrite orb_true_iff, IH. split.
    + intros [H | [pre [post H]]].
      * apply (proj1 (prefix_iff _ _)) in H. destruct H as [post H].
        exists EmptyString, post. exact H.
      * exists (String c pre), post. simpl. now rewrite H.
    + intros [pre [post H]]. destruct pre as [|d pre]; simpl in H.
      * left. apply prefix_iff. exists post. exact H.
      * right. inversion H. exists pre, post. reflexivity.
Qed.

Lemma toLowerCase_app (a b : string) :
  toLowerCase (a ++ b) = (toLowerCase a ++ toLowerCase b)%string.
Proof. induction a as [|c a IH]; simpl; [reflexivity | now rewrite IH]. Qed.

(** A split of the lower-cased string comes from a split of the string. *)
Lemma toLowerCase_split (s a b : string) :
  toLowerCase s = (a ++ b)%string ->
  exists a' b', s = (a' ++ b')%string /\ toLowerCase a' = a /\ toLowerCase b' = b.
Proof.
  revert s; induction a as [|c a IH]; intros s H; simpl in H.
  - exists EmptyString, s. auto.
  - destruct s as [|d s]; simpl in H; [discriminate|].
    injection H as Hc Hs. destruct (IH s Hs) as [a' [b' [E [Ha Hb]]]].
    exists (String d a'), b'. simpl. rewrite Ha, Hc, <- E. auto.
Qed.

Lemma eqIgnoreCase_iff (a b : string) :
  eqIgnoreCase a b = true <-> toLowerCase a = toLowerCase b.
Proof.
  revert b; induction a as [|c a IH]; intros [|d b]; simpl;
    try (split; [reflexivity || discriminate | reflexivity || discriminate]).
  rewrite andb_true_iff, IH, Ascii.eqb_eq. split.
  - intros [-> ->]. reflexivity.
  - intros H. inversion H. auto.
Qed.

Lemma toLowerCaseChar_idem (c : ascii) :
  toLowerCaseChar (toLowerCaseChar c) = toLowerCaseChar c.
Proof.
  destruct c as [[] [] [] [] [] [] [] []]; reflexivity.
Qed.

Lemma toLowerCase_idem (s : string) : toLowerCase (toLowerCase s) = toLowerCase s.
Proof.
  induction s as [|c s IH]; simpl; [reflexivity|].
  now rewrite toLowerCaseChar_idem, IH.
Qed.

(** [includes] on the lower-cased name is the case-insensitive occurrence of
    a word written in lower case. *)
Lemma includes_toLowerCase (groupName word : string) :
  toLowerCase word = word ->
  (includes (toLowerCase groupName) word = true <->
   exists pre mid post,
     groupName = (pre ++ mid ++ post)%string /\ eqIgnoreCase mid word = true).
Proof.
  intros Hw. rewrite includes_iff. split.
  - intros [pre [post H]].
    destruct (toLowerCase_split _ _ _ H) as [pre' [rest [E [Hp Hr]]]].
    destruct (toLowerCase_split _ _ _ Hr) as [mid [post' [E' [Hm Hq]]]].
    exists pre', mid, post'. split.
    + now rewrite E, E'.
    + apply eqIgnoreCase_iff. now rewrite Hm, Hw.
  - intros [pre [mid [post [E H]]]]. apply eqIgnoreCase_iff in H.
    exists (toLowerCase pre), (toLowerCase post).
    rewrite E, !toLowerCase_app, H, Hw. reflexivity.
Qed.

End JsFacts.

(* ================================================================ *)
(** ** Role deriver *)

Section RoleDeriver.

Lemma permOr_assoc (p q r : Permissions) :
  permOr (permOr p q) r = permOr p (permOr q r).
Proof. unfold permOr; simpl; now rewrite !orb_assoc. Qed.

Lemma permOr_none (p : Permissions) :
  permOr p (mkPermissions false false false false false) = p.
Proof. destruct p; unfold permOr; simpl; now rewrite !orb_false_r. Qed.

(** One pass of the [forEach] callback adds what the role grants. *)
Lemma applyRole_permOr (p : Permissions) (role : string) :
  applyRole p role = permOr p (specGrants role).
Proof.
  unfold applyRole, specGrants. cbv zeta.
  set (r := Js.toLowerCase role).
  destruct p as [vd mu se vr ms].
  destruct ((r =? "admin") || (r =? "administrator")).
  { unfold permOr; simpl; now rewrite !orb_true_r. }
  destruct (r =? "editor").
  { unfold permOr; simpl; now rewrite !orb_true_r, !orb_false_r. }
  destruct (r =? "viewer").
  { unfold permOr; simpl; now rewrite !orb_true_r, !orb_false_r. }
  destruct (r =? "user").
  { unfold permOr; simpl; now rewrite !orb_true_r, !orb_false_r. }
  destruct (Js.includes r "admin");
    destruct (Js.includes r "editor" || Js.includes r "write");
    destruct (Js.includes r "view" || Js.includes r "read");
    unfold permOr; simpl; now rewrite ?orb_true_r, ?orb_false_r.
Qed.

Lemma grantedBy_cons (role : string) (rest : list string) :
  grantedBy (role :: rest) = permOr (specGrants role) (grantedBy rest).
Proof. reflexivity. Qed.

(** The loop is the disjunction of what the roles grant. *)
Lemma fold_applyRole (roles0 : list string) (p : Permissions) :
  fold_left applyRole roles0 p = permOr p (grantedBy roles0).
Proof.
  revert p; induction roles0 as [|role rest IH]; intros p.
  - simpl. unfold grantedBy, anyGrants; simpl. now rewrite permOr_none.
  - simpl fold_left. rewrite IH, applyRole_permOr, permOr_assoc.
    now rewrite grantedBy_cons.
Qed.

(** The code and the specification's rules give the same record. *)
Lemma calculatePermissions_specPermissions (roles0 : list string) :
  calculatePermissions roles0 = specPermissions roles0.
Proof.
  unfold calculatePermissions, specPermissions, initializePermissions.
  cbv zeta. rewrite fold_applyRole.
  unfold permOr, grantedBy, Js.some, objectValues, grantViewDashboard; simpl.
  destruct (anyGrants canViewDashboard roles0),
    (anyGrants canManageUsers roles0), (anyGrants canSendEmails roles0),
    (anyGrants canViewReports roles0), (anyGrants canManageSettings roles0);
    reflexivity.
Qed.

Lemma anyGrants_incl (flag : Permissions -> bool) (R R' : list string) :
  incl R R' -> anyGrants flag R = true -> anyGrants flag R' = true.
Proof.
  unfold anyGrants. intros Hin H.
  apply existsb_exists in H. destruct H as [role [Hr Hf]].
  apply existsb_exists. exists role. split; [apply Hin, Hr | exact Hf].
Qed.

Lemma anyGrants_same (flag : Permissions -> bool) (R R' : list string) :
  incl R R' -> incl R' R -> anyGrants flag R = anyGrants flag R'.
Proof.
  intros H1 H2.
  destruct (anyGrants flag R) eqn:E.
  - symmetry. now apply (anyGrants_incl flag R R').
  - destruct (anyGrants flag R') eqn:E'; [|reflexivity].
    apply (anyGrants_incl flag R' R H2) in E'. congruence.
Qed.

(** Role lists with the same elements have the same permissions. *)
Lemma calculatePermissions_same (R R' : list string) :
  incl R R' -> incl R' R -> calculatePermissions R = calculatePermissions R'.
Proof.
  intros H1 H2. rewrite !calculatePermissions_specPermissions.
  unfold specPermissions. cbv zeta.
  now rewrite (anyGrants_same canViewDashboard R R'),
    (anyGrants_same canManageUsers R R'), (anyGrants_same canSendEmails R R'),
    (anyGrants_same canViewReports R R'),
    (anyGrants_same canManageSettings R R').
Qed.

Lemma calculatePermissions_incl (R R' : list string) (key : PermissionKey) :
  incl R R' ->
  permissionAt (calculatePermissions R) key = true ->
  permissionAt (calculatePermissions R') key = true.
Proof.
  intros Hin. rewrite !calculatePermissions_specPermissions.
  unfold specPermissions. cbv zeta.
  pose proof (anyGrants_incl canViewDashboard R R' Hin) as Hvd.
  pose proof (anyGrants_incl canManageUsers R R' Hin) as Hmu.
  pose proof (anyGrants_incl canSendEmails R R' Hin) as Hse.
  pose proof (anyGrants_incl canViewReports R R' Hin) as Hvr.
  pose proof (anyGrants_incl canManageSettings R R' Hin) as Hms.
  destruct (anyGrants canViewDashboard R), (anyGrants canManageUsers R),
    (anyGrants canSendEmails R), (anyGrants canViewReports R),
    (anyGrants canManageSettings R);
    try (rewrite (Hvd eq_refl)); try (rewrite (Hmu eq_refl));
    try (rewrite (Hse eq_refl)); try (rewrite (Hvr eq_refl));
    try (rewrite (Hms eq_refl));
    destruct key; simpl; intros H; try discriminate H;
    rewrite ?orb_true_r; reflexivity.
Qed.

(** C1. For every list of role strings [calculatePermissions] returns the
    record given by the rules of the specification: all five flags start
    false; a role equal, ignoring case, to "admin" or "administrator" turns
    all five on, "editor" turns on dashboard, sendEmails and viewReports,
    "viewer" dashboard and viewReports, "user" dashboard; any other role
    goes through the substring rules; at the end the dashboard is forced on
    when any flag is on.  For ["CustomWriteRole"] the result has sendEmails
    and dashboard on and the other three off. *)
Theorem C1_calculatePermissions_rules :
  (forall roles0 : list string,
     calculatePermissions roles0 = specPermissions roles0) /\
  calculatePermissions ["CustomWriteRole"] =
    mkPermissions true false true false false.
Proof.
  split.
  - exact calculatePermissions_specPermissions.
  - reflexivity.
Qed.

(** C2. For every list of role strings, if any of the five flags of the
    record returned by [calculatePermissions] is true then
    [canViewDashboard] is true. *)
Theorem C2_any_permission_implies_dashboard :
  forall (roles0 : list string) (key : PermissionKey),
    permissionAt (calculatePermissions roles0) key = true ->
    canViewDashboard (calculatePermissions roles0) = true.
Proof.
  intros roles0 key. unfold calculatePermissions. cbv zeta.
  set (p := fold_left applyRole roles0 (initializePermissions roles0)).
  destruct (Js.some (fun value => Bool.eqb value true) (objectValues p)) eqn:E.
  - reflexivity.
  - intros H. exfalso. revert E H.
    unfold Js.some, objectValues. destruct p as [[] [] [] [] []];
      destruct key; simpl; congruence.
Qed.

Lemma C2_witness :
  permissionAt (calculatePermissions ["CustomWriteRole"]) CanSendEmails = true /\
  canViewDashboard (calculatePermissions ["CustomWriteRole"]) = true.
Proof.
  split.
  - reflexivity.
  - apply (C2_any_permission_implies_dashboard ["CustomWriteRole"] CanSendEmails).
    reflexivity.
Defined.

(** C3. [calculatePermissions] is monotonic and independent of the order of
    the roles: when every role of R is a role of R', every flag that is true
    for R is true for R'; and a permutation of the roles leaves the record
    unchanged. *)
Theorem C3_monotonic_and_order_independent :
  (forall (R R' : list string) (key : PermissionKey),
     incl R R' ->
     permissionAt (calculatePermissions R) key = true ->
     permissionAt (calculatePermissions R') key = true) /\
  (forall R R' : list string,
     Permutation R R' -> calculatePermissions R = calculatePermissions R').
Proof.
  split.
  - intros R R' key Hin. now apply calculatePermissions_incl.
  - intros R R' HP. apply calculatePermissions_same; intros x Hx.
    + now apply (Permutation_in x HP).
    + now apply (Permutation_in x (Permutation_sym HP)).
Qed.

Lemma C3_witness :
  permissionAt (calculatePermissions ["Viewer"; "CustomWriteRole"])
    CanViewReports = true /\
  calculatePermissions ["Viewer"; "CustomWriteRole"] =
  calculatePermissions ["CustomWriteRole"; "Viewer"].
Proof.
  split.
  - apply (proj1 C3_monotonic_and_order_independent ["Viewer"]
             ["Viewer"; "CustomWriteRole"] CanViewReports).
    + intros x Hx. simpl in *. tauto.
    + reflexivity.
  - apply (proj2 C3_monotonic_and_order_independent). apply perm_swap.
Defined.

End RoleDeriver.

(* ================================================================ *)
(** ** Group-name role extraction *)

Section GroupRoles.

(** The three substring tests decide the result. *)
Lemma extractRolesFromGroup_cases (groupName : string) :
  extractRolesFromGroup groupName =
    match Js.includes (Js.toLowerCase groupName) "admin",
          Js.includes (Js.toLowerCase groupName) "editor",
          Js.includes (Js.toLowerCase groupName) "viewer" with
    | false, false, false => ["User"]
    | a, e, v =>
        (if a then ["Admin"] else []) ++ (if e then ["Editor"] else []) ++
        (if v then ["Viewer"] else [])
    end.
Proof.
  unfold extractRolesFromGroup. cbv zeta.
  destruct (Js.includes (Js.toLowerCase groupName) "admin"),
    (Js.includes (Js.toLowerCase groupName) "editor"),
    (Js.includes (Js.toLowerCase groupName) "viewer"); reflexivity.
Qed.

Lemma extractRolesFromGroup_ignores_case (g g' : string) :
  Js.eqIgnoreCase g g' = true ->
  extractRolesFromGroup g = extractRolesFromGroup g'.
Proof.
  intros H. apply JsFacts.eqIgnoreCase_iff in H.
  unfold extractRolesFromGroup. now rewrite H.
Qed.

(** C4. For every group display name the role extraction is a
    case-insensitive substring match: a name containing "admin" yields the
    role "Admin", "editor" yields "Editor", "viewer" yields "Viewer"; every
    rule that matches applies, so one name can yield several roles; when no
    rule matches the result is exactly ["User"].  Names that differ only in
    letter case, such as "ADMIN-team" and "admin-team", yield the same
    roles. *)
Theorem C4_extractRolesFromGroup_rules :
  forall groupName : string,
    (In "Admin" (extractRolesFromGroup groupName) <->
       containsIgnoreCase groupName "admin") /\
    (In "Editor" (extractRolesFromGroup groupName) <->
       containsIgnoreCase groupName "editor") /\
    (In "Viewer" (extractRolesFromGroup groupName) <->
       containsIgnoreCase groupName "viewer") /\
    ((~ containsIgnoreCase groupName "admin" /\
      ~ containsIgnoreCase groupName "editor" /\
      ~ containsIgnoreCase groupName "viewer") <->
       extractRolesFromGroup groupName = ["User"]) /\
    (forall groupName' : string,
       Js.eqIgnoreCase groupName groupName' = true ->
       extractRolesFromGroup groupName' = extractRolesFromGroup groupName) /\
    extractRolesFromGroup "ADMIN-team" = extractRolesFromGroup "admin-team" /\
    extractRolesFromGroup "AdminEditor" = ["Admin"; "Editor"].
Proof.
  intros groupName.
  unfold containsIgnoreCase.
  rewrite <- !JsFacts.includes_toLowerCase by reflexivity.
  split; [|split; [|split; [|split; [|split; [|split]]]]].
  1-4: rewrite extractRolesFromGroup_cases;
    destruct (Js.includes (Js.toLowerCase groupName) "admin"),
      (Js.includes (Js.toLowerCase groupName) "editor"),
      (Js.includes (Js.toLowerCase groupName) "viewer");
    simpl; intuition (try discriminate; try congruence).
  - intros g' H. symmetry. now apply extractRolesFromGroup_ignores_case.
  - reflexivity.
  - reflexivity.
Qed.

Lemma C4_witness :
  Js.eqIgnoreCase "ADMIN-team" "admin-TEAM" = true /\
  extractRolesFromGroup "admin-TEAM" = extractRolesFromGroup "ADMIN-team".
Proof.
  split.
  - reflexivity.
  - apply (proj1 (proj2 (proj2 (proj2 (proj2
             (C4_extractRolesFromGroup_rules "ADMIN-team")))))).
    reflexivity.
Defined.

End GroupRoles.

(* ================================================================ *)
(** ** Profile assembler *)

Section ProfileAssemblerFacts.
Local Open Scope op_scope.

Lemma getMyGroupsAndRoles_normal (env : GraphEnv) :
  exists groups0, getMyGroupsAndRoles env = Normal groups0.
Proof.
  unfold getMyGroupsAndRoles.
  destruct (memberOfResponse env) as [[value|]|e]; eauto.
  destruct (collectGroups [] value); eauto.
Qed.

(** The inner [try]/[catch] never throws and publishes one profile. *)
Lemma enrich_eq (basicProfile : UserProfile) (env : GraphEnv) (s : AuthStore) :
  enrich basicProfile env s =
  userProfileSubject_next (Some (enrichedProfile basicProfile env)) s.
Proof.
  unfold enrich, enrichedProfile, Op.tryCatch, Op.bind, Op.lift.
  destruct (getMyGroupsAndRoles_normal env) as [groups0 Hg]. rewrite Hg.
  destruct (getMyProfile env) as [[g|]|e]; reflexivity.
Qed.

(** The part after the first [await], from any store. *)
Lemma loadUserProfile_resume_eq
    (basicProfile : UserProfile) (env : GraphEnv) (s : AuthStore) :
  loadUserProfile_resume basicProfile env s =
  (Normal tt,
   mkAuthStore (Some (enrichedProfile basicProfile env))
     (isAuthenticatedSubject s) false true
     (emitted s ++ [EmitProfile (Some (enrichedProfile basicProfile env));
                    EmitLoading false])).
Proof.
  unfold loadUserProfile_resume, Op.tryFinally, Op.tryCatch.
  rewrite enrich_eq. simpl. now rewrite <- app_assoc.
Qed.

(** The synchronous part. *)
Lemma loadUserProfile_begin_eq (account : JsAccount) (s : AuthStore) :
  loadUserProfile_begin account s =
  match basicProfileOf account with
  | Normal basicProfile =>
      (Normal (Some basicProfile),
       mkAuthStore (userProfileSubject s) (isAuthenticatedSubject s) true
         (isMsalInitialized s) (emitted s ++ [EmitLoading true]))
  | Throw _ =>
      (Normal None,
       mkAuthStore (Some errorProfile) (isAuthenticatedSubject s) false true
         (emitted s ++ [EmitLoading true; EmitProfile (Some errorProfile);
                        EmitLoading false]))
  end.
Proof.
  unfold loadUserProfile_begin, Op.bind.
  destruct (basicProfileOf account) as [b|e]; simpl.
  - reflexivity.
  - now rewrite <- !app_assoc.
Qed.

(** A whole run: the store it leaves. *)
Lemma loadUserProfile_eq (account : JsAccount) (env : GraphEnv) (s : AuthStore) :
  loadUserProfile account env s =
  (Normal tt,
   mkAuthStore (Some (loadedProfile account env)) (isAuthenticatedSubject s)
     false true
     (emitted s ++ [EmitLoading true; EmitProfile (Some (loadedProfile account env));
                    EmitLoading false])).
Proof.
  unfold loadUserProfile, loadedProfile, Op.bind, Op.tryFinally, Op.tryCatch,
    Op.lift.
  destruct (basicProfileOf account) as [b|e]; simpl.
  - rewrite enrich_eq. simpl. now rewrite <- !app_assoc.
  - now rewrite <- !app_assoc.
Qed.

(** Cutting the function at its [await] does not change a run in which no
    other operation touches the store in between. *)
Lemma loadUserProfile_cut (account : JsAccount) (env : GraphEnv) (s : AuthStore) :
  loadUserProfile account env s =
  (suspended <- loadUserProfile_begin account ;;
   match suspended with
   | Some basicProfile => loadUserProfile_resume basicProfile env
   | None => Op.ret tt
   end) s.
Proof.
  rewrite loadUserProfile_eq. unfold Op.bind at 1.
  rewrite loadUserProfile_begin_eq. unfold loadedProfile.
  destruct (basicProfileOf account) as [b|e].
  - rewrite loadUserProfile_resume_eq. simpl. now rewrite <- !app_assoc.
  - reflexivity.
Qed.

End ProfileAssemblerFacts.

Section ProfileAssemblerClaims.

(** The basic profile of step 1 does not carry the permissions of the claim
    roles: for an account whose token carries the role "Admin" its
    permissions are all false, while [calculatePermissions] of its roles
    grants all five. *)
Lemma C5_counterexample :
  exists basicProfile : UserProfile,
    basicProfileOf (Some adminAccount) = Normal basicProfile /\
    roles basicProfile = ["Admin"] /\
    canManageUsers (permissions basicProfile) = false /\
    canManageUsers (calculatePermissions (roles basicProfile)) = true /\
    permissions basicProfile <> calculatePermissions (roles basicProfile).
Proof.
  eexists. split; [reflexivity|]. repeat split. discriminate.
Qed.

(** C5 (amended). In step 1 the basic profile is built synchronously from the
    account alone: its name is the account's name, or "User" when that is
    missing or empty; username and email are the account's username, or the
    empty string; its roles are the roles of the embedded claims only; its
    groups are empty; and its permissions are the initial record, all false.
    The permissions derived from the claims-only roles are put in when the
    basic profile is published after the enrichment failed. *)
Theorem C5_basic_profile :
  forall a : Account,
  exists basicProfile : UserProfile,
    basicProfileOf (Some a) = Normal basicProfile /\
    name basicProfile = Js.strOr (acc_name a) "User" /\
    username basicProfile = Js.strOr (acc_username a) "" /\
    email basicProfile = Js.strOr (acc_username a) "" /\
    roles basicProfile = claimRoles a /\
    groups basicProfile = [] /\
    permissions basicProfile = mkPermissions false false false false false /\
    (forall (env : GraphEnv) (e : JsError) (s : AuthStore),
       meResponse env = Throw e ->
       exists published : UserProfile,
         userProfileSubject (Op.exec (loadUserProfile (Some a) env) s) =
           Some published /\
         name published = name basicProfile /\
         username published = username basicProfile /\
         email published = email basicProfile /\
         roles published = claimRoles a /\
         groups published = [] /\
         permissions published = calculatePermissions (claimRoles a)).
Proof.
  intros a. eexists. split; [reflexivity|]. simpl.
  repeat (split; [reflexivity|]).
  intros env e s He. unfold Op.exec. rewrite loadUserProfile_eq. simpl.
  eexists. split; [reflexivity|].
  unfold loadedProfile, enrichedProfile, getMyProfile. simpl. rewrite He.
  simpl. repeat split.
Qed.

Lemma C5_witness :
  meResponse graphDown = Throw (ProviderError "network") /\
  exists basicProfile : UserProfile,
    basicProfileOf (Some editorAccount) = Normal basicProfile /\
    permissions basicProfile = mkPermissions false false false false false /\
    exists published : UserProfile,
      userProfileSubject
        (Op.exec (loadUserProfile (Some editorAccount) graphDown) newAuthStore) =
        Some published /\
      roles published = ["Editor"] /\
      permissions published = mkPermissions true false true true false.
Proof.
  split; [reflexivity|].
  destruct (C5_basic_profile editorAccount)
    as [b [Hb [_ [_ [_ [_ [_ [Hp Hpub]]]]]]]].
  exists b. split; [exact Hb|]. split; [exact Hp|].
  destruct (Hpub graphDown (ProviderError "network") newAuthStore eq_refl)
    as [published [Hs [_ [_ [_ [Hr [_ Hperm]]]]]]].
  exists published. split; [exact Hs|]. split; [exact Hr | exact Hperm].
Defined.

(** When step 1 fails, the published fallback profile does not have an empty
    name: its name is "User". *)
Lemma C6_counterexample :
  basicProfileOf None = Throw TypeError /\
  exists published : UserProfile,
    userProfileSubject (Op.exec (loadUserProfile None graphDown) newAuthStore) =
      Some published /\
    name published = "User" /\
    name published <> "".
Proof.
  split; [reflexivity|]. eexists. split; [reflexivity|].
  split; [reflexivity | discriminate].
Qed.

(** C6 (amended). When building the basic profile itself fails,
    [loadUserProfile] publishes a minimal fallback profile whose name is
    "User", whose email and username are empty strings, whose roles are
    exactly ["User"], whose groups are empty, and whose permissions are
    [calculatePermissions ["User"]]. *)
Theorem C6_step1_failure_fallback :
  forall (account : JsAccount) (env : GraphEnv) (s : AuthStore) (e : JsError),
    basicProfileOf account = Throw e ->
    let s' := Op.exec (loadUserProfile account env) s in
    let fallback :=
      mkUserProfile "User" "" "" ["User"] [] None None None
        (calculatePermissions ["User"]) in
    userProfileSubject s' = Some fallback /\
    emitted s' =
      emitted s ++ [EmitLoading true; EmitProfile (Some fallback);
                    EmitLoading false].
Proof.
  intros account env s e He. unfold Op.exec. rewrite loadUserProfile_eq.
  unfold loadedProfile. rewrite He. simpl. split; reflexivity.
Qed.

Lemma C6_witness :
  basicProfileOf None = Throw TypeError /\
  userProfileSubject (Op.exec (loadUserProfile None graphAdminTeam) newAuthStore) =
    Some (mkUserProfile "User" "" "" ["User"] [] None None None
            (mkPermissions true false false false false)).
Proof.
  split; [reflexivity|].
  exact (proj1 (C6_step1_failure_fallback None graphAdminTeam newAuthStore
                  TypeError eq_refl)).
Defined.

(** C7. Every run of [loadUserProfile], whether the enrichment succeeds, the
    enrichment fails or step 1 fails, sets the loading flag true at entry
    and false on exit, ends normally (nothing is thrown past the function)
    and has published a profile to the auth state by then.  This holds for
    a run taken as a whole, and also for a run that is suspended on the
    directory and resumed from whatever store the turns in between left. *)
Theorem C7_loadUserProfile_always_publishes :
  forall (account : JsAccount) (env : GraphEnv) (s : AuthStore),
    (exists (published : UserProfile) (s' : AuthStore),
       loadUserProfile account env s = (Normal tt, s') /\
       emitted s' =
         emitted s ++ [EmitLoading true; EmitProfile (Some published);
                       EmitLoading false] /\
       isLoadingSubject s' = false /\
       userProfileSubject s' = Some published /\
       isAuthenticatedSubject s' = isAuthenticatedSubject s /\
       (published = errorProfile \/
        exists basicProfile,
          basicProfileOf account = Normal basicProfile /\
          (published = fallbackProfileOf basicProfile \/
           exists g groups0,
             meResponse env = Normal (Some g) /\
             published =
               fullProfileOf basicProfile g groups0
                 (Js.unique
                    (roles basicProfile ++ flat_map grp_roles groups0))))) /\
    (exists (suspended : option UserProfile) (s1 : AuthStore),
       loadUserProfile_begin account s = (Normal suspended, s1) /\
       hd_error (skipn (length (emitted s)) (emitted s1)) =
         Some (EmitLoading true) /\
       match suspended with
       | None =>
           isLoadingSubject s1 = false /\
           userProfileSubject s1 = Some errorProfile
       | Some basicProfile =>
           forall s2 : AuthStore,
           exists (published : UserProfile) (s' : AuthStore),
             loadUserProfile_resume basicProfile env s2 = (Normal tt, s') /\
             emitted s' =
               emitted s2 ++ [EmitProfile (Some published); EmitLoading false] /\
             isLoadingSubject s' = false /\
             userProfileSubject s' = Some published
       end).
Proof.
  intros account env s. split.
  - rewrite loadUserProfile_eq.
    eexists. eexists. split; [reflexivity|]. simpl.
    repeat (split; [reflexivity|]).
    unfold loadedProfile. destruct (basicProfileOf account) as [b|e].
    + right. exists b. split; [reflexivity|].
      unfold enrichedProfile, getMyProfile.
      destruct (getMyGroupsAndRoles_normal env) as [groups0 Hg]. rewrite Hg.
      destruct (meResponse env) as [[g|]|e]; eauto.
    + left. reflexivity.
  - rewrite loadUserProfile_begin_eq.
    destruct (basicProfileOf account) as [b|e].
    + exists (Some b). eexists. split; [reflexivity|]. simpl. split.
      * rewrite skipn_app, skipn_all, Nat.sub_diag. reflexivity.
      * intros s2. rewrite loadUserProfile_resume_eq.
        eexists. eexists. split; [reflexivity|]. simpl. repeat split.
    + exists None. eexists. split; [reflexivity|]. simpl. split.
      * rewrite skipn_app, skipn_all, Nat.sub_diag. reflexivity.
      * split; reflexivity.
Qed.

End ProfileAssemblerClaims.

(* ================================================================ *)
(** ** Auth state store *)

Section AuthStateStore.
Local Open Scope op_scope.

Lemma fireAll_reachable (es : list Event) (c c' : Config) :
  Reachable c -> fireAll es c = Some c' -> Reachable c'.
Proof.
  revert c; induction es as [|e es IH]; intros c Hc H; simpl in H.
  - now inversion H; subst.
  - destruct (fire e c) as [c1|] eqn:E; [|discriminate].
    apply (IH c1); [|exact H]. now apply (Reachable_fire c c1 e).
Qed.

Lemma Quiet_set_isMsalInitialized (b : bool) : Quiet (set_isMsalInitialized b).
Proof. intros s; split; reflexivity. Qed.

Lemma Quiet_isLoadingSubject_next (b : bool) : Quiet (isLoadingSubject_next b).
Proof. intros s; split; reflexivity. Qed.

Lemma Quiet_ret : Quiet (Op.ret tt).
Proof. intros s; split; reflexivity. Qed.

Lemma Quiet_keeps (m : Op.t unit) (s : AuthStore) :
  Quiet m -> AuthenticatedHasProfile s -> AuthenticatedHasProfile (Op.exec m s).
Proof.
  intros Hq H. destruct (Hq s) as [Hp Ha].
  unfold AuthenticatedHasProfile. now rewrite Hp, Ha.
Qed.

Create HintDb auth_store.
#[local] Hint Resolve Quiet_set_isMsalInitialized Quiet_isLoadingSubject_next
  Quiet_ret : auth_store.

(** Starting a profile load keeps the invariant. *)
Lemma startLoad_keeps (account : JsAccount) (thenAuthenticate : bool)
    (after : Op.t unit) (c : Config) :
  Quiet after ->
  AuthenticatedHasProfile (store c) ->
  AuthenticatedHasProfile (store (startLoad account thenAuthenticate after c)).
Proof.
  intros Hq H. unfold startLoad. rewrite loadUserProfile_begin_eq.
  destruct (basicProfileOf account) as [b|e]; cbn [store].
  - apply Quiet_keeps; [exact Hq|]. exact H.
  - assert (Hp : userProfileSubject
                   (Op.exec after
                      (mkAuthStore (Some errorProfile)
                         (isAuthenticatedSubject (store c)) false true
                         (emitted (store c) ++
                          [EmitLoading true; EmitProfile (Some errorProfile);
                           EmitLoading false]))) = Some errorProfile)
      by (now rewrite (proj1 (Hq _))).
    destruct thenAuthenticate; unfold AuthenticatedHasProfile.
    + simpl. intros _. rewrite Hp. discriminate.
    + intros _. rewrite Hp. discriminate.
Qed.

(** Finishing a profile load keeps the invariant. *)
Lemma graphDone_keeps (basicProfile : UserProfile) (thenAuthenticate : bool)
    (env : GraphEnv) (c : Config) :
  AuthenticatedHasProfile
    (store (graphDone basicProfile thenAuthenticate env c)).
Proof.
  unfold graphDone. rewrite loadUserProfile_resume_eq.
  destruct thenAuthenticate; intros _; simpl; discriminate.
Qed.

(** Every turn keeps the invariant. *)
Lemma fire_keeps (e : Event) (c c' : Config) :
  fire e c = Some c' ->
  AuthenticatedHasProfile (store c) -> AuthenticatedHasProfile (store c').
Proof.
  intros Hf H. destruct e as [ | | |accounts|ok|i r]; simpl in Hf.
  - inversion Hf; subst. exact H.
  - inversion Hf; subst. exact H.
  - inversion Hf; subst. intros Ha. discriminate Ha.
  - inversion Hf; subst. unfold refreshUserProfile.
    destruct accounts as [[|account0 rest]|err]; try exact H.
    apply startLoad_keeps; auto with auth_store.
  - inversion Hf; subst. unfold ensureMSALInitialized.
    destruct (isMsalInitialized (store c)); [exact H|].
    destruct ok; exact H.
  - destruct (nth_error (pending c) i) as [[ | | |basicProfile t]|];
      destruct r as [ok|accounts|ok|env]; try discriminate Hf;
      inversion Hf; subst; clear Hf.
    + unfold loginInitialized. destruct ok; exact H.
    + unfold loginPopupDone.
      destruct accounts as [[|account0 rest]|]; try exact H.
      apply startLoad_keeps; auto with auth_store.
    + unfold logoutPopupDone. destruct ok; [|exact H].
      intros Ha. discriminate Ha.
    + apply graphDone_keeps.
Qed.

Lemma construct_keeps (accounts : Completion (list JsAccount)) :
  AuthenticatedHasProfile (store (construct accounts)).
Proof.
  unfold construct, initializeAuth.
  destruct accounts as [[|account0 rest]|err];
    try (intros Ha; discriminate Ha).
  apply startLoad_keeps; auto with auth_store.
  intros Ha; discriminate Ha.
Qed.

Lemma Reachable_keeps (c : Config) :
  Reachable c -> AuthenticatedHasProfile (store c).
Proof.
  induction 1 as [accounts|c c' e Hc IH Hf].
  - apply construct_keeps.
  - exact (fire_keeps e c c' Hf IH).
Qed.

(** C8. In every state of the auth state store that initialization, login,
    logout, reset and profile loads can reach, [isAuthenticated] true
    implies a profile that is not null.  The converse does not hold: a
    profile can be present while [isAuthenticated] is false. *)
Theorem C8_authenticated_implies_profile :
  (forall c : Config,
     Reachable c ->
     isAuthenticatedSubject (store c) = true ->
     userProfileSubject (store c) <> None) /\
  (exists c : Config,
     Reachable c /\
     userProfileSubject (store c) <> None /\
     isAuthenticatedSubject (store c) = false).
Proof.
  split.
  - intros c Hc. exact (Reachable_keeps c Hc).
  - destruct refreshWithoutLogin as [c|] eqn:E; [|discriminate E].
    exists c. split.
    + apply (fireAll_reachable
               [CallRefreshUserProfile (Normal [Some userAccount]);
                Settle 0 (GraphResult graphDown)]
               (construct (Normal [])) c);
        [apply Reachable_construct | exact E].
    + vm_compute in E. inversion E; subst. simpl.
      split; [discriminate | reflexivity].
Qed.

Lemma C8_witness :
  exists c : Config,
    sessionAtStartup = Some c /\
    isAuthenticatedSubject (store c) = true /\
    userProfileSubject (store c) <> None.
Proof.
  destruct sessionAtStartup as [c|] eqn:E; [|discriminate E].
  exists c. split; [reflexivity|].
  assert (Ha : isAuthenticatedSubject (store c) = true)
    by (vm_compute in E; inversion E; reflexivity).
  split; [exact Ha|].
  apply (proj1 C8_authenticated_implies_profile c); [|exact Ha].
  apply (fireAll_reachable [Settle 0 (GraphResult graphAdminTeam)]
           (construct (Normal [Some userAccount])) c);
    [apply Reachable_construct | exact E].
Defined.

End AuthStateStore.

(* ================================================================ *)
(** ** Queries *)

Section Queries.

Lemma arrayIncludes_In (arr : list string) (x : string) :
  Js.arrayIncludes arr x = true <-> In x arr.
Proof.
  unfold Js.arrayIncludes. rewrite existsb_exists. split.
  - intros [y [Hy E]]. apply String.eqb_eq in E. now subst.
  - intros H. exists x. split; [exact H | apply String.eqb_refl].
Qed.

Lemma arrayIncludes_notIn (arr : list string) (x : string) :
  ~ In x arr -> Js.arrayIncludes arr x = false.
Proof.
  intros H. destruct (Js.arrayIncludes arr x) eqn:E; [|reflexivity].
  apply arrayIncludes_In in E. contradiction.
Qed.

(** [find] stops at the first entry that passes. *)
Lemma find_first {A} (f : A -> bool) (before after : list A) (r : A) :
  f r = true -> (forall r', In r' before -> f r' = false) ->
  find f (before ++ r :: after) = Some r.
Proof.
  intros Hr. induction before as [|b before IH]; intros Hb; simpl.
  - now rewrite Hr.
  - rewrite (Hb b (or_introl eq_refl)). apply IH.
    intros r' Hin. apply Hb. now right.
Qed.

Lemma find_nothing {A} (f : A -> bool) (l : list A) :
  (forall r, In r l -> f r = false) -> find f l = None.
Proof.
  induction l as [|a l IH]; intros H; simpl; [reflexivity|].
  rewrite (H a (or_introl eq_refl)). apply IH.
  intros r Hin. apply H. now right.
Qed.

(** With a first role that is the empty string and none of the four
    priority roles present, [getHighestRole] does not return that first
    element: it returns "User". *)
Lemma C9_counterexample :
  (forall r : string, In r roleHierarchy -> ~ In r [""; "Auditor"]) /\
  hd_error [""; "Auditor"] = Some "" /\
  getHighestRole (storeWithRoles [""; "Auditor"]) = "User" /\
  getHighestRole (storeWithRoles [""; "Auditor"]) <> "".
Proof.
  split; [|split; [reflexivity | split; [reflexivity | discriminate]]].
  intros r Hr Hin. simpl in Hr, Hin.
  destruct Hr as [<-|[<-|[<-|[<-|[]]]]];
    destruct Hin as [E|[E|[]]]; discriminate E.
Qed.

(** C9 (amended). [getHighestRole] picks from the roles of the current
    profile by the fixed priority list [Admin, Editor, Viewer, User]: it
    returns the first entry of that list that is among the roles; when none
    of the four is among them it returns the first role of the list unless
    that role is the empty string, in which case it returns "User"; and
    when the role list is empty or no profile is loaded it returns
    "User". *)
Theorem C9_getHighestRole :
  forall s : AuthStore,
    match userProfileSubject s with
    | None => getHighestRole s = "User"
    | Some profile =>
        match roles profile with
        | [] => getHighestRole s = "User"
        | first :: _ =>
            (forall (r : string) (before after : list string),
               roleHierarchy = before ++ r :: after ->
               In r (roles profile) ->
               (forall r', In r' before -> ~ In r' (roles profile)) ->
               getHighestRole s = r) /\
            ((forall r, In r roleHierarchy -> ~ In r (roles profile)) ->
             getHighestRole s = if first =? "" then "User" else first)
        end
    end.
Proof.
  intros s. unfold getHighestRole.
  destruct (userProfileSubject s) as [profile|]; [|reflexivity].
  destruct (roles profile) as [|first rest] eqn:Er; [reflexivity|].
  cbn [length Nat.eqb]. split.
  - intros r before after Hh Hin Hbefore. rewrite Hh.
    rewrite (find_first _ before after r); [reflexivity| |].
    + now apply arrayIncludes_In.
    + intros r' Hr'. apply arrayIncludes_notIn. now apply Hbefore.
  - intros Hnone. rewrite find_nothing; [reflexivity|].
    intros r Hr. apply arrayIncludes_notIn. now apply Hnone.
Qed.

Lemma C9_witness :
  roleHierarchy = ["Admin"] ++ "Editor" :: ["Viewer"; "User"] /\
  getHighestRole (storeWithRoles ["User"; "Editor"; "Auditor"]) = "Editor".
Proof.
  split; [reflexivity|].
  apply (proj1 (C9_getHighestRole (storeWithRoles ["User"; "Editor"; "Auditor"]))
           "Editor" ["Admin"] ["Viewer"; "User"]).
  - reflexivity.
  - simpl. tauto.
  - intros r' [<-|[]] [E|[E|[E|[]]]]; discriminate E.
Defined.

(** C10. While no profile is loaded every public query denies or returns the
    empty value: [hasRole] is false for every role, [hasAnyRole] is false
    for every list, [hasPermission] is false for every permission name,
    [getRoles] returns the empty list and [getPermissions] returns null.
    The queries are total functions: none of them throws in that state. *)
Theorem C10_queries_without_profile :
  forall s : AuthStore,
    userProfileSubject s = None ->
    (forall role : string, hasRole s role = false) /\
    (forall roles0 : list string, hasAnyRole s roles0 = false) /\
    (forall permission : PermissionKey, hasPermission s permission = false) /\
    getRoles s = [] /\
    getPermissions s = None /\
    getCurrentUser s = None /\
    getHighestRole s = "User".
Proof.
  intros s H.
  unfold hasRole, hasAnyRole, hasPermission, getRoles, getPermissions,
    getCurrentUser, getHighestRole.
  rewrite H. repeat split.
Qed.

Lemma C10_witness :
  userProfileSubject newAuthStore = None /\
  hasRole newAuthStore "Admin" = false /\
  hasAnyRole newAuthStore ["Admin"; "User"] = false /\
  hasPermission newAuthStore CanViewDashboard = false.
Proof.
  split; [reflexivity|].
  destruct (C10_queries_without_profile newAuthStore eq_refl)
    as [Hr [Ha [Hp _]]].
  split; [apply Hr | split; [apply Ha | apply Hp]].
Defined.

End Queries.

(* ================================================================ *)
(** ** Scenarios of the specification *)

Example calculatePermissions_admin :
  calculatePermissions ["Admin"] = mkPermissions true true true true true.
Proof. reflexivity. Qed.

Example calculatePermissions_viewer :
  calculatePermissions ["Viewer"] = mkPermissions true false false true false.
Proof. reflexivity. Qed.

Example calculatePermissions_none :
  calculatePermissions [] = mkPermissions false false false false false /\
  getHighestRole (storeWithRoles []) = "User".
Proof. split; reflexivity. Qed.

(** The enrichment fails after the basic profile was built from the claim
    role "Editor". *)
Example enrichment_fails_editor :
  exists p,
    userProfileSubject
      (Op.exec (loadUserProfile (Some editorAccount) graphDown) newAuthStore) =
      Some p /\
    roles p = ["Editor"] /\ groups p = [] /\
    permissions p = mkPermissions true false true true false.
Proof. eexists. split; [reflexivity|]. repeat split. Qed.

(** The enrichment succeeds with one group "AdminTeam" and the claim role
    "User". *)
Example enrichment_succeeds_adminTeam :
  exists p,
    userProfileSubject
      (Op.exec (loadUserProfile (Some userAccount) graphAdminTeam) newAuthStore) =
      Some p /\
    roles p = ["User"; "Admin"] /\
    jobTitle p = Some "Engineer" /\
    permissions p = mkPermissions true true true true true.
Proof. eexists. split; [reflexivity|]. repeat split. Qed.

(** [new Set] keeps the first occurrence of every role. *)
Example unique_keeps_first :
  Js.unique ["User"; "Admin"; "User"; "Editor"; "Admin"] =
  ["User"; "Admin"; "Editor"].
Proof. reflexivity. Qed.

(** A login on a service that is ready, with the directory down. *)
Example login_session :
  exists c,
    fireAll [CallLogin;
             Settle 0 (LoginPopupResult (Some [Some editorAccount]));
             Settle 0 (GraphResult graphDown)]
      (construct (Normal [])) = Some c /\
    isAuthenticatedSubject (store c) = true /\
    isLoadingSubject (store c) = false /\
    getRoles (store c) = ["Editor"] /\
    pending c = [].
Proof. eexists. split; [reflexivity|]. repeat split. Qed.

(* ================================================================ *)
(** ** More on the role deriver *)

Section RoleDeriverMore.

Lemma specGrants_manage (role : string) :
  canManageSettings (specGrants role) = canManageUsers (specGrants role).
Proof.
  unfold specGrants. cbv zeta.
  repeat match goal with
         | |- context [if ?b then _ else _] => destruct b
         end; reflexivity.
Qed.

Lemma anyGrants_ext (f g : Permissions -> bool) (R : list string) :
  (forall role, f (specGrants role) = g (specGrants role)) ->
  anyGrants f R = anyGrants g R.
Proof.
  intros H. unfold anyGrants. induction R as [|r R IH]; simpl; [reflexivity|].
  now rewrite H, IH.
Qed.

Lemma calculatePermissions_manage (roles0 : list string) :
  canManageSettings (calculatePermissions roles0) =
  canManageUsers (calculatePermissions roles0).
Proof.
  rewrite calculatePermissions_specPermissions.
  unfold specPermissions. cbv zeta. simpl.
  apply anyGrants_ext, specGrants_manage.
Qed.

(** X1. The two management permissions always go together: for every role
    list, settings management is granted exactly when user management
    is. *)
Theorem manageUsers_iff_manageSettings :
  forall roles0 : list string,
    canManageSettings (calculatePermissions roles0) =
    canManageUsers (calculatePermissions roles0).
Proof. exact calculatePermissions_manage. Qed.

Lemma anyGrants_app (f : Permissions -> bool) (R R' : list string) :
  anyGrants f (R ++ R') = anyGrants f R || anyGrants f R'.
Proof. unfold anyGrants. apply existsb_app. Qed.

(** X2. Folding in more roles is the field-wise disjunction of the records. *)
Theorem calculatePermissions_app :
  forall R R' : list string,
    calculatePermissions (R ++ R') =
    permOr (calculatePermissions R) (calculatePermissions R').
Proof.
  intros R R'. rewrite !calculatePermissions_specPermissions.
  unfold specPermissions, permOr. cbv zeta. simpl. rewrite !anyGrants_app.
  destruct (anyGrants canViewDashboard R), (anyGrants canManageUsers R),
    (anyGrants canSendEmails R), (anyGrants canViewReports R),
    (anyGrants canManageSettings R), (anyGrants canViewDashboard R'),
    (anyGrants canManageUsers R'), (anyGrants canSendEmails R'),
    (anyGrants canViewReports R'), (anyGrants canManageSettings R');
    reflexivity.
Qed.

Lemma uniqueFrom_In (seen arr : list string) (x : string) :
  In x (Js.uniqueFrom seen arr) <-> In x arr /\ ~ In x seen.
Proof.
  revert seen; induction arr as [|a arr IH]; intros seen; simpl.
  - tauto.
  - destruct (Js.arrayIncludes seen a) eqn:E.
    + apply arrayIncludes_In in E. rewrite IH. split.
      * intros [H1 H2]. auto.
      * intros [[->|H1] H2]; [contradiction | auto].
    + assert (Hn : ~ In a seen)
        by (intros Hin; apply arrayIncludes_In in Hin; congruence).
      simpl. rewrite IH. simpl. split.
      * intros [->|[H1 H2]]; [auto | split; [auto | tauto]].
      * intros [[->|H1] H2]; [auto|].
        destruct (string_dec a x) as [->|Hne]; [auto | right].
        split; [exact H1 | intros [?|?]; contradiction].
Qed.

Lemma uniqueFrom_NoDup (seen arr : list string) :
  NoDup (Js.uniqueFrom seen arr).
Proof.
  revert seen; induction arr as [|a arr IH]; intros seen; simpl.
  - constructor.
  - destruct (Js.arrayIncludes seen a); [apply IH|].
    constructor; [|apply IH].
    rewrite uniqueFrom_In. simpl. tauto.
Qed.

Lemma unique_In (arr : list string) (x : string) :
  In x (Js.unique arr) <-> In x arr.
Proof. unfold Js.unique. rewrite uniqueFrom_In. simpl. tauto. Qed.

Lemma uniqueFrom_NoDup_id (seen arr : list string) :
  NoDup arr -> (forall x, In x arr -> ~ In x seen) ->
  Js.uniqueFrom seen arr = arr.
Proof.
  revert seen; induction arr as [|a arr IH]; intros seen Hnd Hdis; simpl.
  - reflexivity.
  - inversion Hnd as [|? ? Hna Hnd']; subst.
    rewrite (arrayIncludes_notIn seen a) by (apply Hdis; now left).
    f_equal. apply IH; [exact Hnd'|].
    intros x Hx [<-|Hs]; [contradiction|].
    apply (Hdis x); [now right | exact Hs].
Qed.

(** X3. [[...new Set(arr)]] has no duplicates, the same elements as [arr], and
    leaves alone an array without duplicates; removing the duplicates does
    not change the permissions. *)
Theorem unique_roles :
  forall arr : list string,
    NoDup (Js.unique arr) /\
    (forall x, In x (Js.unique arr) <-> In x arr) /\
    (NoDup arr -> Js.unique arr = arr) /\
    Js.unique (Js.unique arr) = Js.unique arr /\
    calculatePermissions (Js.unique arr) = calculatePermissions arr.
Proof.
  intros arr.
  assert (Hnd : NoDup (Js.unique arr)) by apply uniqueFrom_NoDup.
  assert (Hid : forall l, NoDup l -> Js.unique l = l)
    by (intros l Hl; apply uniqueFrom_NoDup_id; [exact Hl | intros x _ []]).
  split; [exact Hnd|]. split; [apply unique_In|].
  split; [apply Hid|]. split; [apply Hid, Hnd|].
  apply calculatePermissions_same; intros x Hx; now apply unique_In.
Qed.

Lemma unique_roles_witness :
  NoDup ["User"; "Admin"] /\ Js.unique ["User"; "Admin"] = ["User"; "Admin"].
Proof.
  assert (H : NoDup ["User"; "Admin"]).
  { constructor; [simpl; intros [E|[]]; discriminate E|].
    constructor; [intros []|constructor]. }
  split; [exact H|].
  exact (proj1 (proj2 (proj2 (unique_roles ["User"; "Admin"]))) H).
Defined.

Lemma specGrants_lower (r r' : string) :
  Js.toLowerCase r = Js.toLowerCase r' -> specGrants r = specGrants r'.
Proof. intros H. unfold specGrants. now rewrite H. Qed.

(** X4. Role lists that agree position by position up to the case of letters
    have the same permissions. *)
Theorem calculatePermissions_ignores_case :
  forall R R' : list string,
    Forall2 (fun r r' => Js.eqIgnoreCase r r' = true) R R' ->
    calculatePermissions R = calculatePermissions R'.
Proof.
  intros R R' H. rewrite !calculatePermissions_specPermissions.
  assert (Hg : forall f, anyGrants f R = anyGrants f R').
  { intros f. unfold anyGrants. induction H as [|r r' R R' Hr _ IH]; simpl.
    - reflexivity.
    - apply JsFacts.eqIgnoreCase_iff in Hr.
      now rewrite (specGrants_lower r r' Hr), IH. }
  unfold specPermissions. cbv zeta. now rewrite !Hg.
Qed.

Lemma calculatePermissions_ignores_case_witness :
  calculatePermissions ["ADMIN"; "viewer"] =
  calculatePermissions ["admin"; "Viewer"].
Proof.
  apply calculatePermissions_ignores_case.
  repeat constructor.
Defined.

End RoleDeriverMore.

Section RoleDeriverFlags.

(** What one role grants, flag by flag, without the order of the [switch]:
    the exact names contain the words that the substring rules look for. *)
Lemma specGrants_flat (role : string) :
  canManageUsers (specGrants role) = mentions "admin" role /\
  canSendEmails (specGrants role) =
    isAdminName role || mentions "editor" role || mentions "write" role /\
  canViewReports (specGrants role) =
    isAdminName role || (Js.toLowerCase role =? "editor") ||
    mentions "view" role || mentions "read" role.
Proof.
  unfold specGrants, isAdminName, mentions. cbv zeta.
  set (r := Js.toLowerCase role).
  destruct (r =? "admin") eqn:E1.
  { apply String.eqb_eq in E1. rewrite E1. repeat split. }
  destruct (r =? "administrator") eqn:E2.
  { apply String.eqb_eq in E2. rewrite E2. repeat split. }
  destruct (r =? "editor") eqn:E3.
  { apply String.eqb_eq in E3. rewrite E3. repeat split. }
  destruct (r =? "viewer") eqn:E4.
  { apply String.eqb_eq in E4. rewrite E4. repeat split. }
  destruct (r =? "user") eqn:E5.
  { apply String.eqb_eq in E5. rewrite E5. repeat split. }
  simpl. repeat split.
Qed.

Lemma existsb_ext' {A} (f g : A -> bool) (l : list A) :
  (forall a, f a = g a) -> existsb f l = existsb g l.
Proof.
  intros H. induction l as [|a l IH]; simpl; [reflexivity|]. now rewrite H, IH.
Qed.

Lemma canViewReports_flat (R : list string) :
  canViewReports (calculatePermissions R) =
  existsb (fun r => isAdminName r || (Js.toLowerCase r =? "editor") ||
                    mentions "view" r || mentions "read" r) R.
Proof.
  rewrite calculatePermissions_specPermissions. simpl.
  apply existsb_ext'. intros r. apply specGrants_flat.
Qed.

(** X5. The permissions of a role list, flag by flag: user and settings
    management need a role that contains "admin"; sending e-mails a role
    named admin or administrator or containing "editor" or "write"; reports
    a role named admin, administrator or editor or containing "view" or
    "read"; the dashboard any of these or a role named user.  All
    comparisons ignore case. *)
Theorem calculatePermissions_flags :
  forall roles0 : list string,
    let p := calculatePermissions roles0 in
    canManageUsers p = existsb (mentions "admin") roles0 /\
    canManageSettings p = existsb (mentions "admin") roles0 /\
    canSendEmails p =
      existsb (fun r => isAdminName r || mentions "editor" r || mentions "write" r)
        roles0 /\
    canViewReports p =
      existsb (fun r => isAdminName r || (Js.toLowerCase r =? "editor") ||
                        mentions "view" r || mentions "read" r) roles0 /\
    canViewDashboard p =
      existsb (fun r => Js.toLowerCase r =? "user") roles0 ||
      canManageUsers p || canSendEmails p || canViewReports p.
Proof.
  intros R p.
  assert (Hmu : canManageUsers p = existsb (mentions "admin") R).
  { unfold p. rewrite calculatePermissions_specPermissions. simpl.
    apply existsb_ext'. intros r. apply specGrants_flat. }
  assert (Hse : canSendEmails p =
                existsb (fun r => isAdminName r || mentions "editor" r ||
                                  mentions "write" r) R).
  { unfold p. rewrite calculatePermissions_specPermissions. simpl.
    apply existsb_ext'. intros r. apply specGrants_flat. }
  assert (Hvr : canViewReports p =
                existsb (fun r => isAdminName r || (Js.toLowerCase r =? "editor") ||
                                  mentions "view" r || mentions "read" r) R).
  { unfold p. rewrite calculatePermissions_specPermissions. simpl.
    apply existsb_ext'. intros r. apply specGrants_flat. }
  split; [exact Hmu|].
  split; [unfold p; rewrite calculatePermissions_manage; exact Hmu|].
  split; [exact Hse|]. split; [exact Hvr|].
  assert (Hms : canManageSettings p = canManageUsers p)
    by apply calculatePermissions_manage.
  assert (Hvd : anyGrants canViewDashboard R = true ->
                existsb (fun r => Js.toLowerCase r =? "user") R ||
                anyGrants canSendEmails R || anyGrants canViewReports R = true).
  { unfold anyGrants. intros H. apply existsb_exists in H.
    destruct H as [r [Hin Hr]]. rewrite !orb_true_iff, !existsb_exists.
    revert Hr. unfold specGrants. cbv zeta.
    destruct ((Js.toLowerCase r =? "admin") ||
              (Js.toLowerCase r =? "administrator")) eqn:E1.
    { intros _. left. right. exists r. unfold specGrants. cbv zeta.
      now rewrite E1. }
    destruct (Js.toLowerCase r =? "editor") eqn:E3.
    { intros _. left. right. exists r. unfold specGrants. cbv zeta.
      now rewrite E1, E3. }
    destruct (Js.toLowerCase r =? "viewer") eqn:E4.
    { intros _. right. exists r. unfold specGrants. cbv zeta.
      now rewrite E1, E3, E4. }
    destruct (Js.toLowerCase r =? "user") eqn:E5.
    { intros _. left. left. exists r. auto. }
    simpl. discriminate. }
  assert (Hu : existsb (fun r => Js.toLowerCase r =? "user") R = true ->
               anyGrants canViewDashboard R = true).
  { unfold anyGrants. intros H. apply existsb_exists in H.
    destruct H as [r [Hin Hr]]. apply existsb_exists. exists r.
    split; [exact Hin|]. unfold specGrants. cbv zeta. rewrite Hr.
    repeat match goal with
           | |- context [if ?b then _ else _] => destruct b
           end; reflexivity. }
  clear Hmu Hse Hvr. revert Hms Hvd Hu. unfold p.
  rewrite calculatePermissions_specPermissions. simpl.
  intros ->.
  destruct (anyGrants canViewDashboard R), (anyGrants canManageUsers R),
    (anyGrants canSendEmails R), (anyGrants canViewReports R),
    (existsb (fun r => Js.toLowerCase r =? "user") R);
    simpl; intros H1 H2; try reflexivity;
    try (now rewrite H2); try (now rewrite <- H1).
Qed.

End RoleDeriverFlags.

(* ================================================================ *)
(** ** More on the directory groups *)

Section GroupsMore.

Ltac group_cases groupName :=
  rewrite (extractRolesFromGroup_cases groupName);
  destruct (Js.includes (Js.toLowerCase groupName) "admin"),
    (Js.includes (Js.toLowerCase groupName) "editor"),
    (Js.includes (Js.toLowerCase groupName) "viewer").

(** X6. Every group name yields between one and three roles, without
    repetition, each one of Admin, Editor, Viewer, User and in that order;
    User is never given together with another role. *)
Theorem extractRolesFromGroup_shape :
  forall groupName : string,
    let roles0 := extractRolesFromGroup groupName in
    1 <= length roles0 <= 3 /\
    NoDup roles0 /\
    (exists pick : list bool,
       roles0 = map snd (filter fst (combine pick roleHierarchy))) /\
    (In "User" roles0 -> roles0 = ["User"]).
Proof.
  intros groupName. cbv zeta. group_cases groupName; simpl;
    (split; [lia|]);
    (split; [repeat (constructor; [simpl; intuition discriminate|]); constructor|]);
    (split; [|intuition discriminate]).
  - exists [true; true; true; false]. reflexivity.
  - exists [true; true; false; false]. reflexivity.
  - exists [true; false; true; false]. reflexivity.
  - exists [true; false; false; false]. reflexivity.
  - exists [false; true; true; false]. reflexivity.
  - exists [false; true; false; false]. reflexivity.
  - exists [false; false; true; false]. reflexivity.
  - exists [false; false; false; true]. reflexivity.
Qed.

Lemma extractRolesFromGroup_shape_witness :
  In "User" (extractRolesFromGroup "Sales") /\
  extractRolesFromGroup "Sales" = ["User"].
Proof.
  assert (H : In "User" (extractRolesFromGroup "Sales")) by (left; reflexivity).
  split; [exact H|].
  exact (proj2 (proj2 (proj2 (extractRolesFromGroup_shape "Sales"))) H).
Defined.

(** X7. Membership of any group gives access to the dashboard, and membership
    of a group whose name contains "admin" in any case gives all five
    permissions. *)
Theorem group_permissions :
  forall groupName : string,
    canViewDashboard (calculatePermissions (extractRolesFromGroup groupName)) =
      true /\
    (Js.includes (Js.toLowerCase groupName) "admin" = true ->
     calculatePermissions (extractRolesFromGroup groupName) =
       mkPermissions true true true true true).
Proof.
  intros groupName. group_cases groupName;
    (split; [reflexivity | intros H; try discriminate H; reflexivity]).
Qed.

Lemma group_permissions_witness :
  Js.includes (Js.toLowerCase "IT-ADMINS") "admin" = true /\
  calculatePermissions (extractRolesFromGroup "IT-ADMINS") =
    mkPermissions true true true true true.
Proof.
  split; [reflexivity|].
  apply (proj2 (group_permissions "IT-ADMINS")). reflexivity.
Defined.

Lemma collectGroups_named (items : list DirectoryObject) :
  forall acc,
    existsb unnamedGroup items = false ->
    collectGroups acc items = Normal (acc ++ groupsOfItems items).
Proof.
  induction items as [|item rest IH]; intros acc H; simpl in *.
  - now rewrite app_nil_r.
  - apply orb_false_iff in H. destruct H as [Hi Hr].
    unfold unnamedGroup, isGroupItem in *.
    destruct (do_odataType item =? "#microsoft.graph.group"); simpl in *.
    + destruct (do_displayName item) as [n|]; [|discriminate Hi].
      rewrite (IH _ Hr). now rewrite <- app_assoc.
    + apply IH, Hr.
Qed.

Lemma collectGroups_unnamed (items : list DirectoryObject) :
  forall acc,
    existsb unnamedGroup items = true ->
    collectGroups acc items = Throw TypeError.
Proof.
  induction items as [|item rest IH]; intros acc H; simpl in *.
  - discriminate H.
  - unfold unnamedGroup, isGroupItem in *.
    destruct (do_odataType item =? "#microsoft.graph.group"); simpl in *.
    + destruct (do_displayName item) as [n|]; [|reflexivity].
      apply IH, H.
    + apply IH, H.
Qed.

Lemma getMyGroupsAndRoles_eq (env : GraphEnv) :
  getMyGroupsAndRoles env =
    Normal
      match memberOfResponse env with
      | Normal (Some value) =>
          if existsb unnamedGroup value then [] else groupsOfItems value
      | _ => []
      end.
Proof.
  unfold getMyGroupsAndRoles.
  destruct (memberOfResponse env) as [[value|]|e]; try reflexivity.
  destruct (existsb unnamedGroup value) eqn:E.
  - now rewrite collectGroups_unnamed.
  - now rewrite collectGroups_named.
Qed.

(** X8. [getMyGroupsAndRoles] never throws.  When the response has a [value] in
    which every group element has a display name, it returns one group per
    group element, in order, with the roles read off the name.  In every
    other case (request failed, no [value], a group element without display
    name) it returns the empty list, also when other groups of the response
    were well formed. *)
Theorem getMyGroupsAndRoles_result :
  forall env : GraphEnv,
    getMyGroupsAndRoles env =
      Normal
        match memberOfResponse env with
        | Normal (Some value) =>
            if existsb unnamedGroup value then [] else groupsOfItems value
        | _ => []
        end.
Proof. exact getMyGroupsAndRoles_eq. Qed.

(** X9. Every group returned carries exactly the roles of its display name, and
    there are at most as many groups as elements in the response. *)
Theorem getMyGroupsAndRoles_groups :
  forall (env : GraphEnv) (groups0 : list AzureADGroup),
    getMyGroupsAndRoles env = Normal groups0 ->
    Forall (fun g => grp_roles g = extractRolesFromGroup (grp_displayName g))
      groups0 /\
    match memberOfResponse env with
    | Normal (Some value) => length groups0 <= length value
    | _ => groups0 = []
    end.
Proof.
  intros env groups0. rewrite getMyGroupsAndRoles_eq.
  intros H. injection H as <-.
  destruct (memberOfResponse env) as [[value|]|e];
    try (split; [constructor | reflexivity]).
  destruct (existsb unnamedGroup value); [split; [constructor | simpl; lia]|].
  clear. induction value as [|item rest [IH1 IH2]]; simpl.
  - split; [constructor | lia].
  - unfold groupsOfItems in *. simpl.
    destruct (isGroupItem item); simpl; [|split; [exact IH1 | lia]].
    destruct (do_displayName item); simpl; [|split; [exact IH1 | lia]].
    split; [constructor; [reflexivity | exact IH1] | lia].
Qed.

Lemma getMyGroupsAndRoles_groups_witness :
  getMyGroupsAndRoles graphAdminTeam =
    Normal [mkAzureADGroup "g1" "AdminTeam" None ["Admin"]] /\
  Forall (fun g => grp_roles g = extractRolesFromGroup (grp_displayName g))
    [mkAzureADGroup "g1" "AdminTeam" None ["Admin"]].
Proof.
  split; [reflexivity|].
  exact (proj1 (getMyGroupsAndRoles_groups graphAdminTeam
                  [mkAzureADGroup "g1" "AdminTeam" None ["Admin"]] eq_refl)).
Defined.

End GroupsMore.

(* ================================================================ *)
(** ** More on the profile assembler *)

Section ProfileAssemblerMore.

Lemma enrichedProfile_derived (basicProfile : UserProfile) (env : GraphEnv) :
  permissions (enrichedProfile basicProfile env) =
  calculatePermissions (roles (enrichedProfile basicProfile env)).
Proof.
  unfold enrichedProfile.
  destruct (getMyProfile env) as [[g|]|e];
    destruct (getMyGroupsAndRoles env); reflexivity.
Qed.

Lemma loadedProfile_derived (account : JsAccount) (env : GraphEnv) :
  permissions (loadedProfile account env) =
  calculatePermissions (roles (loadedProfile account env)).
Proof.
  unfold loadedProfile. destruct (basicProfileOf account).
  - apply enrichedProfile_derived.
  - reflexivity.
Qed.

(** X10. When the directory answers with a user record, the published roles are
    the claim roles and the roles of all fetched groups, without
    duplicates; the groups are those the directory client returned; the
    directory's job title and office win over the token's when they are
    present and not empty. *)
Theorem enrichment_success :
  forall (a : Account) (env : GraphEnv) (g : GraphUser) (s : AuthStore),
    meResponse env = Normal (Some g) ->
    exists (p : UserProfile) (groups0 : list AzureADGroup),
      userProfileSubject (Op.exec (loadUserProfile (Some a) env) s) = Some p /\
      getMyGroupsAndRoles env = Normal groups0 /\
      groups p = groups0 /\
      graphProfile p = Some g /\
      NoDup (roles p) /\
      (forall r : string,
         In r (roles p) <->
         In r (claimRoles a) \/
         exists grp, In grp groups0 /\ In r (grp_roles grp)) /\
      jobTitle p = Js.optOr (gu_jobTitle g) (claimJobTitle a) /\
      officeLocation p = Js.optOr (gu_officeLocation g) (claimOfficeLocation a) /\
      name p = Js.strOr (acc_name a) "User" /\
      permissions p = calculatePermissions (roles p).
Proof.
  intros a env g s Hme.
  destruct (getMyGroupsAndRoles_normal env) as [groups0 Hg].
  unfold Op.exec. rewrite loadUserProfile_eq. simpl.
  unfold loadedProfile, enrichedProfile, getMyProfile. simpl.
  rewrite Hme, Hg. eexists. exists groups0.
  split; [reflexivity|]. simpl.
  split; [reflexivity|]. split; [reflexivity|]. split; [reflexivity|].
  split; [apply uniqueFrom_NoDup|].
  split; [|repeat split].
  intros r. rewrite unique_In, in_app_iff, in_flat_map. tauto.
Qed.

Lemma enrichment_success_witness :
  exists p : UserProfile,
    userProfileSubject
      (Op.exec (loadUserProfile (Some userAccount) graphAdminTeam) newAuthStore) =
      Some p /\
    NoDup (roles p) /\ jobTitle p = Some "Engineer".
Proof.
  destruct (enrichment_success userAccount graphAdminTeam
              (mkGraphUser "1" "Uma" "uma@contoso.example"
                 "uma@contoso.example" (Some "Engineer") None)
              newAuthStore eq_refl)
    as [p [groups0 [Hp [_ [_ [_ [Hnd [_ [Hj _]]]]]]]]].
  exists p. split; [exact Hp|]. split; [exact Hnd | exact Hj].
Defined.

(** X11. Whatever the directory answers, the published profile has at least the
    permissions of the roles embedded in the token: enrichment only adds
    permissions. *)
Theorem enrichment_only_adds :
  forall (a : Account) (env : GraphEnv) (s : AuthStore) (key : PermissionKey),
    permissionAt (calculatePermissions (claimRoles a)) key = true ->
    hasPermission (Op.exec (loadUserProfile (Some a) env) s) key = true.
Proof.
  intros a env s key H. unfold Op.exec, hasPermission.
  rewrite loadUserProfile_eq. simpl.
  rewrite loadedProfile_derived.
  apply (calculatePermissions_incl (claimRoles a)); [|exact H].
  unfold loadedProfile, enrichedProfile. simpl.
  destruct (getMyProfile env) as [[g|]|e];
    destruct (getMyGroupsAndRoles env); simpl;
    try (intros x Hx; exact Hx).
  intros x Hx. apply unique_In, in_app_iff. now left.
Qed.

Lemma enrichment_only_adds_witness :
  hasPermission
    (Op.exec (loadUserProfile (Some editorAccount) graphAdminTeam) newAuthStore)
    CanSendEmails = true.
Proof.
  apply (enrichment_only_adds editorAccount graphAdminTeam newAuthStore
           CanSendEmails).
  reflexivity.
Defined.

End ProfileAssemblerMore.

(* ================================================================ *)
(** ** More on the life cycle *)

Section LifecycleMore.
Local Open Scope op_scope.

Create HintDb lifecycle.
#[local] Hint Resolve Quiet_set_isMsalInitialized Quiet_isLoadingSubject_next
  Quiet_ret : lifecycle.

Lemma Quiet_derived (m : Op.t unit) (s : AuthStore) :
  Quiet m -> DerivedPermissions s -> DerivedPermissions (Op.exec m s).
Proof.
  intros Hq H p. rewrite (proj1 (Hq s)). apply H.
Qed.

Lemma startLoad_derived (account : JsAccount) (thenAuthenticate : bool)
    (after : Op.t unit) (c : Config) :
  Quiet after ->
  DerivedPermissions (store c) ->
  DerivedPermissions (store (startLoad account thenAuthenticate after c)).
Proof.
  intros Hq H. unfold startLoad. rewrite loadUserProfile_begin_eq.
  destruct (basicProfileOf account) as [b|e]; cbn [store].
  - apply Quiet_derived; [exact Hq|]. exact H.
  - assert (Hd : DerivedPermissions
                   (Op.exec after
                      (mkAuthStore (Some errorProfile)
                         (isAuthenticatedSubject (store c)) false true
                         (emitted (store c) ++
                          [EmitLoading true; EmitProfile (Some errorProfile);
                           EmitLoading false])))).
    { apply Quiet_derived; [exact Hq|]. intros p Hp. simpl in Hp.
      injection Hp as <-. reflexivity. }
    destruct thenAuthenticate; [|exact Hd].
    intros p Hp. apply Hd. exact Hp.
Qed.

Lemma graphDone_derived (basicProfile : UserProfile) (thenAuthenticate : bool)
    (env : GraphEnv) (c : Config) :
  DerivedPermissions (store (graphDone basicProfile thenAuthenticate env c)).
Proof.
  unfold graphDone. rewrite loadUserProfile_resume_eq.
  destruct thenAuthenticate; intros p Hp; simpl in Hp; injection Hp as <-;
    apply enrichedProfile_derived.
Qed.

Lemma fire_derived (e : Event) (c c' : Config) :
  fire e c = Some c' ->
  DerivedPermissions (store c) -> DerivedPermissions (store c').
Proof.
  intros Hf H. destruct e as [ | | |accounts|ok|i r]; simpl in Hf.
  - inversion Hf; subst. exact H.
  - inversion Hf; subst. exact H.
  - inversion Hf; subst. intros p Hp. discriminate Hp.
  - inversion Hf; subst. unfold refreshUserProfile.
    destruct accounts as [[|account0 rest]|err]; try exact H.
    apply startLoad_derived; auto with lifecycle.
  - inversion Hf; subst. unfold ensureMSALInitialized.
    destruct (isMsalInitialized (store c)); [exact H|].
    destruct ok; exact H.
  - destruct (nth_error (pending c) i) as [[ | | |basicProfile t]|];
      destruct r as [ok|accounts|ok|env]; try discriminate Hf;
      inversion Hf; subst; clear Hf.
    + unfold loginInitialized. destruct ok; exact H.
    + unfold loginPopupDone.
      destruct accounts as [[|account0 rest]|]; try exact H.
      apply startLoad_derived; auto with lifecycle.
    + unfold logoutPopupDone. destruct ok; [|exact H].
      intros p Hp. discriminate Hp.
    + apply graphDone_derived.
Qed.

Lemma Reachable_derived (c : Config) :
  Reachable c -> DerivedPermissions (store c).
Proof.
  intros Hc. induction Hc as [accounts|c c' e Hc IH Hf].
  - unfold construct, initializeAuth.
    destruct accounts as [[|account0 rest]|err];
      try (intros p Hp; discriminate Hp).
    apply startLoad_derived; auto with lifecycle.
    intros p Hp; discriminate Hp.
  - exact (fire_derived e c c' Hf IH).
Qed.

(** X12. In every state the service can reach, the permissions of the stored
    profile are those that [calculatePermissions] derives from the stored
    roles; so whoever holds any permission holds the dashboard permission,
    and user management and settings management are held together. *)
Theorem reachable_permissions_derived :
  forall c : Config,
    Reachable c ->
    (forall p : UserProfile,
       userProfileSubject (store c) = Some p ->
       permissions p = calculatePermissions (roles p)) /\
    (forall key : PermissionKey,
       hasPermission (store c) key = true ->
       hasPermission (store c) CanViewDashboard = true) /\
    hasPermission (store c) CanManageUsers =
      hasPermission (store c) CanManageSettings.
Proof.
  intros c Hc.
  pose proof (Reachable_derived c Hc) as Hd.
  split; [exact Hd|]. unfold hasPermission.
  destruct (userProfileSubject (store c)) as [p|] eqn:E.
  - rewrite (Hd p E). split.
    + intros key Hk. simpl. revert Hk.
      unfold calculatePermissions. cbv zeta.
      set (q := fold_left applyRole (roles p) (initializePermissions (roles p))).
      destruct (Js.some (fun value => Bool.eqb value true) (objectValues q))
        eqn:Es; [reflexivity|].
      revert Es. unfold Js.some, objectValues.
      destruct q as [[] [] [] [] []]; destruct key; simpl; congruence.
    + simpl. symmetry. apply calculatePermissions_manage.
  - split; [intros key Hk; discriminate Hk | reflexivity].
Qed.

Lemma reachable_permissions_derived_witness :
  exists c : Config,
    sessionAtStartup = Some c /\
    hasPermission (store c) CanManageUsers = true /\
    hasPermission (store c) CanViewDashboard = true.
Proof.
  destruct sessionAtStartup as [c|] eqn:E; [|discriminate E].
  exists c. split; [reflexivity|].
  assert (Hk : hasPermission (store c) CanManageUsers = true)
    by (vm_compute in E; inversion E; reflexivity).
  split; [exact Hk|].
  apply (proj1 (proj2 (reachable_permissions_derived c
           (fireAll_reachable [Settle 0 (GraphResult graphAdminTeam)]
              (construct (Normal [Some userAccount])) c
              (Reachable_construct _) E))) CanManageUsers Hk).
Defined.

End LifecycleMore.

Section LifecycleLoading.
Local Open Scope op_scope.

Lemma app_one_not_nil {A} (l : list A) (x : A) : l ++ [x] = [] -> False.
Proof. destruct l; discriminate. Qed.

Lemma startLoad_idle (account : JsAccount) (thenAuthenticate : bool)
    (after : Op.t unit) (c : Config) :
  KeepsLoadingOff after ->
  Idle (startLoad account thenAuthenticate after c).
Proof.
  intros Hk. unfold startLoad, Idle. rewrite loadUserProfile_begin_eq.
  destruct (basicProfileOf account) as [b|e]; cbn [store pending].
  - intros H. destruct (app_one_not_nil _ _ H).
  - intros _. destruct thenAuthenticate; [simpl|]; apply Hk; reflexivity.
Qed.

Lemma fire_idle (e : Event) (c c' : Config) :
  fire e c = Some c' -> Idle c -> Idle c'.
Proof.
  intros Hf H. destruct e as [ | | |accounts|ok|i r]; simpl in Hf.
  - inversion Hf; subst. intros Hp. destruct (app_one_not_nil _ _ Hp).
  - inversion Hf; subst. intros Hp. destruct (app_one_not_nil _ _ Hp).
  - inversion Hf; subst. intros _. reflexivity.
  - inversion Hf; subst. unfold refreshUserProfile.
    destruct accounts as [[|account0 rest]|err]; try exact H.
    apply startLoad_idle. intros s Hs. exact Hs.
  - inversion Hf; subst. unfold ensureMSALInitialized.
    destruct (isMsalInitialized (store c)); [exact H|].
    destruct ok; exact H.
  - destruct (nth_error (pending c) i) as [[ | | |basicProfile t]|];
      destruct r as [ok|accounts|ok|env]; try discriminate Hf;
      inversion Hf; subst; clear Hf.
    + unfold loginInitialized. destruct ok.
      * intros Hp. destruct (app_one_not_nil _ _ Hp).
      * intros _. reflexivity.
    + unfold loginPopupDone.
      destruct accounts as [[|account0 rest]|]; try (intros _; reflexivity).
      apply startLoad_idle. intros s _. reflexivity.
    + unfold logoutPopupDone. destruct ok; intros _; reflexivity.
    + unfold graphDone. rewrite loadUserProfile_resume_eq.
      destruct t; intros _; reflexivity.
Qed.

(** X13. In every reachable state with no operation suspended the loading flag
    is off.  The converse fails: after a successful login popup the flag is
    already off while the profile load still waits for the directory. *)
Theorem idle_not_loading :
  (forall c : Config,
     Reachable c -> pending c = [] -> isLoadingSubject (store c) = false) /\
  (exists (c : Config) (b : UserProfile),
     Reachable c /\ pending c = [AwaitGraph b true] /\
     isLoadingSubject (store c) = false).
Proof.
  split.
  - intros c Hc. induction Hc as [accounts|c c' e Hc IH Hf].
    + unfold construct, initializeAuth.
      destruct accounts as [[|account0 rest]|err];
        try (intros _; reflexivity).
      apply startLoad_idle. intros s Hs. exact Hs.
    + exact (fire_idle e c c' Hf IH).
  - destruct loginInFlight as [c|] eqn:E; [|discriminate E].
    assert (Hr : Reachable c).
    { apply (fireAll_reachable
               [CallLogin;
                Settle 0 (LoginPopupResult (Some [Some editorAccount]))]
               (construct (Normal [])) c);
        [apply Reachable_construct | exact E]. }
    vm_compute in E. inversion E; subst.
    eexists. eexists. split; [exact Hr|]. split; reflexivity.
Qed.

Lemma idle_not_loading_witness :
  exists c : Config,
    fireAll [CallLogin; Settle 0 (LoginPopupResult None)]
      (construct (Normal [])) = Some c /\
    pending c = [] /\ isLoadingSubject (store c) = false.
Proof.
  destruct (fireAll [CallLogin; Settle 0 (LoginPopupResult None)]
              (construct (Normal []))) as [c|] eqn:E; [|discriminate E].
  exists c. split; [reflexivity|].
  assert (Hp : pending c = []) by (vm_compute in E; inversion E; reflexivity).
  split; [exact Hp|].
  apply (proj1 idle_not_loading c); [|exact Hp].
  apply (fireAll_reachable [CallLogin; Settle 0 (LoginPopupResult None)]
           (construct (Normal [])) c);
    [apply Reachable_construct | exact E].
Defined.

(** X14. When the directory answers a suspended profile load, the load publishes
    its profile, turns the loading flag off and, for a load started by
    login or at start-up, sets the authenticated flag, whatever happened
    since the load began.  A reset does not cancel the load: the same
    answer after [reset] leaves the store authenticated again. *)
Theorem load_settles :
  forall (c : Config) (i : nat) (b : UserProfile) (t : bool) (env : GraphEnv),
    nth_error (pending c) i = Some (AwaitGraph b t) ->
    (exists c' : Config,
       fire (Settle i (GraphResult env)) c = Some c' /\
       userProfileSubject (store c') = Some (enrichedProfile b env) /\
       isLoadingSubject (store c') = false /\
       isAuthenticatedSubject (store c') =
         t || isAuthenticatedSubject (store c) /\
       pending c' = dropNth i (pending c)) /\
    (exists c' : Config,
       fire (Settle i (GraphResult env)) (reset c) = Some c' /\
       userProfileSubject (store c') = Some (enrichedProfile b env) /\
       isAuthenticatedSubject (store c') = t).
Proof.
  intros c i b t env H. split.
  - eexists. simpl. rewrite H. split; [reflexivity|].
    unfold graphDone. rewrite loadUserProfile_resume_eq.
    destruct t; simpl; repeat split.
  - eexists. simpl. rewrite H. split; [reflexivity|].
    unfold graphDone. rewrite loadUserProfile_resume_eq.
    destruct t; simpl; repeat split.
Qed.

Lemma load_settles_witness :
  exists c' : Config,
    fire (Settle 0 (GraphResult graphDown))
      (reset (construct (Normal [Some editorAccount]))) = Some c' /\
    isAuthenticatedSubject (store c') = true.
Proof.
  destruct (proj2 (load_settles (construct (Normal [Some editorAccount])) 0
                     (mkUserProfile "Eve" "eve@contoso.example"
                        "eve@contoso.example" ["Editor"] [] None None None
                        (mkPermissions false false false false false))
                     true graphDown eq_refl))
    as [c' [Hf [_ Ha]]].
  exists c'. split; [exact Hf | exact Ha].
Defined.

(** X15. A failed collaborator (MSAL initialisation rejected, login popup failed
    or left no account, logout popup failed) turns the loading flag off and
    leaves the profile and the authenticated flag as they were. *)
Theorem failure_keeps_session :
  forall (c c' : Config) (i : nat) (r : Response),
    fire (Settle i r) c = Some c' ->
    isFailure r = true ->
    userProfileSubject (store c') = userProfileSubject (store c) /\
    isAuthenticatedSubject (store c') = isAuthenticatedSubject (store c) /\
    isLoadingSubject (store c') = false /\
    pending c' = dropNth i (pending c).
Proof.
  intros c c' i r Hf Hr. simpl in Hf.
  destruct (nth_error (pending c) i) as [[ | | |basicProfile t]|];
    destruct r as [[]|[[|a l]|]|[]|env]; try discriminate Hf;
    try discriminate Hr; inversion Hf; subst; simpl; repeat split.
Qed.

Lemma failure_keeps_session_witness :
  exists c' : Config,
    fire (Settle 0 (LogoutPopupResult false))
      (logout (mkConfig (storeWithRoles ["Admin"]) [])) = Some c' /\
    isAuthenticatedSubject (store c') = true /\
    isLoadingSubject (store c') = false.
Proof.
  eexists. split; [reflexivity|].
  destruct (failure_keeps_session
              (logout (mkConfig (storeWithRoles ["Admin"]) [])) _ 0
              (LogoutPopupResult false) eq_refl eq_refl)
    as [_ [Ha [Hl _]]].
  split; [exact Ha | exact Hl].
Defined.

(** X16. After [reset], and after a logout whose popup succeeded, the store has
    no profile and is not authenticated, so every query denies. *)
Theorem cleared_store_denies :
  forall (c c' : Config),
    c' = reset c \/
    (exists i, nth_error (pending c) i = Some AwaitLogoutPopup /\
               fire (Settle i (LogoutPopupResult true)) c = Some c') ->
    userProfileSubject (store c') = None /\
    isAuthenticated (store c') = false /\
    isLoadingSubject (store c') = false /\
    (forall role, hasRole (store c') role = false) /\
    (forall roles0, hasAnyRole (store c') roles0 = false) /\
    (forall key, hasPermission (store c') key = false) /\
    getHighestRole (store c') = "User".
Proof.
  intros c c' [->|[i [Hn Hf]]].
  - simpl. repeat split.
  - simpl in Hf. rewrite Hn in Hf. inversion Hf; subst. simpl.
    repeat split.
Qed.

Lemma cleared_store_denies_witness :
  hasPermission (store (reset (mkConfig (storeWithRoles ["Admin"]) [])))
    CanViewDashboard = false.
Proof.
  destruct (cleared_store_denies (mkConfig (storeWithRoles ["Admin"]) [])
              (reset (mkConfig (storeWithRoles ["Admin"]) []))
              (or_introl eq_refl))
    as [_ [_ [_ [_ [_ [Hp _]]]]]].
  apply Hp.
Defined.

End LifecycleLoading.

(* ================================================================ *)
(** ** More on the queries *)

Section QueriesMore.

Lemma hasAnyRole_existsb (s : AuthStore) (roles0 : list string) :
  hasAnyRole s roles0 = existsb (hasRole s) roles0.
Proof.
  unfold hasRole, hasAnyRole, Js.some.
  destruct (userProfileSubject s) as [p|]; [reflexivity|].
  induction roles0 as [|r l IH]; simpl; [reflexivity | exact IH].
Qed.

(** X17. [hasRole] holds exactly when some role of the profile equals the asked
    role up to the case of letters, and [hasAnyRole] exactly when [hasRole]
    holds for one of the asked roles; in particular [hasAnyRole] of the
    empty list is false, with or without a profile. *)
Theorem hasRole_hasAnyRole :
  forall (s : AuthStore) (role : string) (roles0 : list string),
    (hasRole s role = true <->
     exists userRole,
       In userRole (getRoles s) /\ Js.eqIgnoreCase userRole role = true) /\
    hasAnyRole s roles0 = existsb (hasRole s) roles0 /\
    hasAnyRole s [] = false.
Proof.
  intros s role roles0. unfold hasRole, hasAnyRole, getRoles, Js.some.
  destruct (userProfileSubject s) as [p|].
  - split; [|split; reflexivity].
    rewrite existsb_exists. split.
    + intros [u [Hin Hu]]. exists u. split; [exact Hin|].
      apply JsFacts.eqIgnoreCase_iff. now apply String.eqb_eq.
    + intros [u [Hin Hu]]. exists u. split; [exact Hin|].
      apply String.eqb_eq. now apply JsFacts.eqIgnoreCase_iff.
  - split; [|split; [|reflexivity]].
    + split; [discriminate | intros [u [[] _]]].
    + induction roles0 as [|r l IH]; simpl; [reflexivity | exact IH].
Qed.

(** X18. [getHighestRole] never returns the empty string: it returns "User" or a
    role of the profile; and it returns "Admin" whenever the profile has
    the role written exactly so. *)
Theorem getHighestRole_range :
  forall s : AuthStore,
    getHighestRole s <> "" /\
    (getHighestRole s = "User" \/ In (getHighestRole s) (getRoles s)) /\
    (In "Admin" (getRoles s) -> getHighestRole s = "Admin").
Proof.
  intros s. unfold getHighestRole, getRoles.
  destruct (userProfileSubject s) as [p|];
    [|split; [discriminate | split; [now left | intros []]]].
  destruct (roles p) as [|first rest] eqn:Er;
    [split; [discriminate | split; [now left | intros []]]|].
  cbn [length Nat.eqb]. unfold roleHierarchy. cbn [find nth_error Js.strOr].
  destruct (Js.arrayIncludes (first :: rest) "Admin") eqn:Ea.
  { apply arrayIncludes_In in Ea.
    split; [discriminate | split; [now right | reflexivity]]. }
  assert (Hna : In "Admin" (first :: rest) -> False)
    by (intros H; apply arrayIncludes_In in H; congruence).
  destruct (Js.arrayIncludes (first :: rest) "Editor") eqn:Ee.
  { apply arrayIncludes_In in Ee.
    split; [discriminate | split; [now right | intros H; destruct (Hna H)]]. }
  destruct (Js.arrayIncludes (first :: rest) "Viewer") eqn:Ev.
  { apply arrayIncludes_In in Ev.
    split; [discriminate | split; [now right | intros H; destruct (Hna H)]]. }
  destruct (Js.arrayIncludes (first :: rest) "User") eqn:Eu.
  { split; [discriminate | split; [now left | intros H; destruct (Hna H)]]. }
  destruct (first =? "") eqn:E0.
  - split; [discriminate | split; [now left | intros H; destruct (Hna H)]].
  - apply String.eqb_neq in E0.
    split; [exact E0 | split; [right; now left | intros H; destruct (Hna H)]].
Qed.

Lemma getHighestRole_range_witness :
  In "Admin" (getRoles (storeWithRoles ["Viewer"; "Admin"])) /\
  getHighestRole (storeWithRoles ["Viewer"; "Admin"]) = "Admin".
Proof.
  assert (H : In "Admin" (getRoles (storeWithRoles ["Viewer"; "Admin"])))
    by (right; left; reflexivity).
  split; [exact H|].
  exact (proj2 (proj2 (getHighestRole_range
                         (storeWithRoles ["Viewer"; "Admin"]))) H).
Defined.

End QueriesMore.

(* ================================================================ *)
(** ** Route guards *)

Section GuardFacts.
Variable inherited : string -> bool.

Lemma permissionKeyOf_not_empty (name : string) (key : PermissionKey) :
  permissionKeyOf name = Some key -> name <> "".
Proof. intros H ->. discriminate H. Qed.

(** X19. The permission guard of permission.guard.ts lets a navigation pass
    exactly when the route names a permission, the name is not empty and
    the user holds it; then it has no effect.  Otherwise it navigates to
    the route's redirect target, "/unauthorized" when none is given, and
    remembers the attempted URL first unless the target is "/login". *)
Theorem permissionGuard_decision :
  forall (data : option RouteData) (url : string) (s : AuthStore),
    let requiredPermission :=
      match data with Some d => rd_permission d | None => None end in
    let target :=
      Js.strOr (match data with Some d => rd_redirectTo d | None => None end)
        "/unauthorized" in
    (fst (permissionGuard inherited data url s) = true <->
     exists name,
       requiredPermission = Some name /\ name <> "" /\
       hasPermissionNamed inherited s name = true) /\
    (fst (permissionGuard inherited data url s) = true ->
     snd (permissionGuard inherited data url s) = []) /\
    (fst (permissionGuard inherited data url s) = false ->
     snd (permissionGuard inherited data url s) =
       if target =? "/login" then [Navigate target]
       else [SetItem "redirectAfterLogin" url; Navigate target]).
Proof.
  intros data url s. cbv zeta. unfold permissionGuard. cbv zeta.
  set (rp := match data with Some d => rd_permission d | None => None end).
  set (target := Js.strOr _ "/unauthorized").
  destruct rp as [name|].
  - destruct (name =? "") eqn:En; simpl.
    + apply String.eqb_eq in En. split; [|split].
      * split; [discriminate|]. intros [n [Hn [Hne _]]].
        injection Hn as <-. contradiction.
      * discriminate.
      * intros _. destruct (target =? "/login"); reflexivity.
    + apply String.eqb_neq in En.
      destruct (hasPermissionNamed inherited s name) eqn:Eh; simpl.
      * split; [|split; [reflexivity | discriminate]].
        split; [intros _; exists name; auto | reflexivity].
      * split; [|split].
        -- split; [discriminate|]. intros [n [Hn [_ Hh]]].
           injection Hn as <-. congruence.
        -- discriminate.
        -- intros _. destruct (target =? "/login"); reflexivity.
  - simpl. split; [|split].
    + split; [discriminate | intros [n [Hn _]]; discriminate Hn].
    + discriminate.
    + intros _. destruct (target =? "/login"); reflexivity.
Qed.

Lemma permissionGuard_key (name : string) (key : PermissionKey)
    (redirectTo : option string) (url : string) (s : AuthStore) :
  permissionKeyOf name = Some key ->
  fst (permissionGuard inherited (Some (mkRouteData (Some name) redirectTo))
         url s) =
  hasPermission s key.
Proof.
  intros Hk.
  pose proof (permissionKeyOf_not_empty name key Hk) as Hne.
  apply String.eqb_neq in Hne.
  unfold permissionGuard, hasPermissionNamed, hasPermission.
  cbv zeta. cbn [rd_permission]. rewrite Hne, Hk. simpl.
  destruct (userProfileSubject s) as [p|]; [|reflexivity].
  destruct (permissionAt (permissions p) key); reflexivity.
Qed.

(** X20. For a route that names one of the five permission keys, the guards of
    role.guard.ts and of permission.guard.ts take the same decision, which
    is the value of that permission in the stored profile. *)
Theorem permission_guards_agree :
  forall (name : string) (key : PermissionKey) (redirectTo : option string)
         (url : string) (s : AuthStore),
    permissionKeyOf name = Some key ->
    fst (rolePermissionGuard inherited name s) = hasPermission s key /\
    fst (permissionGuard inherited (Some (withPermission name redirectTo)) url s) =
      hasPermission s key.
Proof.
  intros name key redirectTo url s Hk.
  pose proof (permissionKeyOf_not_empty name key Hk) as Hne.
  apply String.eqb_neq in Hne.
  unfold rolePermissionGuard, permissionGuard, withPermission,
    hasPermissionNamed, hasPermission. cbv zeta. cbn [rd_permission].
  rewrite Hne, Hk. simpl.
  destruct (userProfileSubject s) as [p|]; [|split; reflexivity].
  destruct (permissionAt (permissions p) key); split; reflexivity.
Qed.

(** X21. Without a profile every guard denies, whatever the route asks for; the
    role guards navigate to "/unauthorized". *)
Theorem guards_without_profile :
  forall (s : AuthStore) (allowedRoles : list string) (name : string)
         (data : option RouteData) (url : string),
    userProfileSubject s = None ->
    roleGuard allowedRoles s = (false, [Navigate "/unauthorized"]) /\
    rolePermissionGuard inherited name s = (false, [Navigate "/unauthorized"]) /\
    fst (permissionGuard inherited data url s) = false.
Proof.
  intros s allowedRoles name data url H.
  unfold roleGuard, rolePermissionGuard, permissionGuard, hasAnyRole,
    hasPermissionNamed. cbv zeta. rewrite H.
  split; [reflexivity|]. split; [reflexivity|].
  destruct data as [[[n|] r]|]; simpl; try reflexivity.
  now rewrite andb_false_r.
Qed.

(** X22. In every state the service can reach, the reports route of
    app.routes.ts ([data: { permission: 'canViewReports' }]) is open to the
    permission guard exactly for a profile with a role named admin,
    administrator or editor, or containing "view" or "read", ignoring case;
    and the role guard for a list of roles is open exactly when one of them
    equals a role of the profile up to case. *)
Theorem reports_route_open :
  forall (c : Config) (url : string) (allowedRoles : list string),
    Reachable c ->
    fst (permissionGuard inherited
           (Some (mkRouteData (Some "canViewReports") None)) url (store c)) =
      existsb (fun r => isAdminName r || (Js.toLowerCase r =? "editor") ||
                        mentions "view" r || mentions "read" r)
        (getRoles (store c)) /\
    fst (roleGuard allowedRoles (store c)) =
      existsb (fun role => existsb (fun userRole => Js.eqIgnoreCase userRole role)
                             (getRoles (store c))) allowedRoles.
Proof.
  intros c url allowedRoles Hc. split.
  - rewrite (permissionGuard_key "canViewReports" CanViewReports None url
               (store c) eq_refl).
    pose proof (Reachable_derived c Hc) as Hd.
    unfold hasPermission, getRoles.
    destruct (userProfileSubject (store c)) as [p|] eqn:Ep; [|reflexivity].
    rewrite (Hd p Ep). simpl.
    apply canViewReports_flat.
  - unfold roleGuard.
    pose proof (hasAnyRole_existsb (store c) allowedRoles) as Ha.
    rewrite (surjective_pairing (if hasAnyRole (store c) allowedRoles
                                 then _ else _)).
    assert (Hf : fst (if hasAnyRole (store c) allowedRoles
                      then (true, @nil GuardEffect)
                      else (false, [Navigate "/unauthorized"])) =
                 hasAnyRole (store c) allowedRoles)
      by (destruct (hasAnyRole (store c) allowedRoles); reflexivity).
    simpl fst. rewrite Hf, Ha. apply existsb_ext'. intros role.
    unfold hasRole, getRoles, Js.some.
    destruct (userProfileSubject (store c)) as [p|]; [|reflexivity].
    apply existsb_ext'. intros u.
    destruct (Js.eqIgnoreCase u role) eqn:E.
    + apply JsFacts.eqIgnoreCase_iff in E. now apply String.eqb_eq.
    + apply String.eqb_neq. intros H.
      apply JsFacts.eqIgnoreCase_iff in H. congruence.
Qed.

End GuardFacts.

Lemma permissionGuard_decision_witness :
  permissionGuard inheritsNothing (Some (withPermission "canViewReports" None))
    "/reports" (storeWithRoles ["User"]) =
  (false, [SetItem "redirectAfterLogin" "/reports"; Navigate "/unauthorized"]).
Proof.
  assert (H : fst (permissionGuard inheritsNothing
                     (Some (withPermission "canViewReports" None))
                     "/reports" (storeWithRoles ["User"])) = false)
    by reflexivity.
  pose proof (proj2 (proj2 (permissionGuard_decision inheritsNothing
                (Some (withPermission "canViewReports" None))
                "/reports" (storeWithRoles ["User"]))) H) as Hs.
  rewrite (surjective_pairing (permissionGuard _ _ _ _)), H, Hs.
  reflexivity.
Defined.

Lemma permission_guards_agree_witness :
  fst (rolePermissionGuard inheritsNothing "canSendEmails"
         (storeWithRoles ["Editor"])) = true.
Proof.
  rewrite (proj1 (permission_guards_agree inheritsNothing "canSendEmails" CanSendEmails None
                    "/mail" (storeWithRoles ["Editor"]) eq_refl)).
  reflexivity.
Defined.

Lemma guards_without_profile_witness :
  fst (permissionGuard inheritsNothing (Some (withPermission "constructor" None))
         "/admin" newAuthStore) = false.
Proof.
  apply (proj2 (proj2 (guards_without_profile inheritsNothing newAuthStore [] ""
                         (Some (withPermission "constructor" None)) "/admin"
                         eq_refl))).
Defined.

Lemma reports_route_open_witness :
  exists c : Config,
    sessionAtStartup = Some c /\
    fst (permissionGuard inheritsNothing
           (Some (mkRouteData (Some "canViewReports") None)) "/reports"
           (store c)) = true.
Proof.
  destruct sessionAtStartup as [c|] eqn:E; [|discriminate E].
  exists c. split; [reflexivity|].
  rewrite (proj1 (reports_route_open inheritsNothing c "/reports" []
             (fireAll_reachable [Settle 0 (GraphResult graphAdminTeam)]
                (construct (Normal [Some userAccount])) c
                (Reachable_construct _) E))).
  vm_compute in E. inversion E. reflexivity.
Defined.

(* ================================================================ *)
(** ** Token acquisition *)

Section TokenFacts.

Lemma accessTokenOf_normal (response : Completion (option string))
    (missing token : string) :
  accessTokenOf response missing = Normal token ->
  response = Normal (Some token) /\ token <> "".
Proof.
  unfold accessTokenOf. destruct response as [[t|]|e]; try discriminate.
  destruct (t =? "") eqn:E; [discriminate|].
  intros H. injection H as <-. apply String.eqb_neq in E. auto.
Qed.

(** X23. A token that [getAccessToken] returns is never empty; it is the token
    of the silent request, made for a cached account and not followed by a
    popup, or else the token of the popup; and MSAL is initialised by
    then. *)
Theorem getAccessToken_token :
  forall (env : MsalEnv) (s s' : AuthStore) (token : string)
         (calls : list MsalCall),
    getAccessToken env s = ((Normal token, calls), s') ->
    token <> "" /\
    isMsalInitialized s' = true /\
    ((silentToken env = Normal (Some token) /\ cachedAccounts env <> [] /\
      ~ In MsalAcquireTokenPopup calls) \/
     (popupToken env = Normal (Some token) /\ silentDelivers env = false /\
      In MsalAcquireTokenPopup calls)).
Proof.
  intros env s s' token calls. unfold getAccessToken, ensureMSALInitialized_run.
  assert (Hinit :
    forall calls0 s1,
      isMsalInitialized s1 = true ->
      ~ In MsalAcquireTokenPopup calls0 ->
      (let silent :=
         match cachedAccounts env with
         | [] => (Throw (newError "No user account found"), [])
         | _ :: _ =>
             (accessTokenOf (silentToken env) "No access token received",
              [MsalAcquireTokenSilent])
         end in
       match fst silent with
       | Normal token0 => ((Normal token0, calls0 ++ snd silent), s1)
       | Throw _ =>
           ((accessTokenOf (popupToken env)
               "No access token received from popup",
             calls0 ++ snd silent ++ [MsalAcquireTokenPopup]), s1)
       end) = ((Normal token, calls), s') ->
      token <> "" /\ isMsalInitialized s' = true /\
      ((silentToken env = Normal (Some token) /\ cachedAccounts env <> [] /\
        ~ In MsalAcquireTokenPopup calls) \/
       (popupToken env = Normal (Some token) /\ silentDelivers env = false /\
        In MsalAcquireTokenPopup calls))).
  { intros calls0 s1 Hs1 Hc0. cbv zeta. unfold silentDelivers.
    destruct (cachedAccounts env) as [|a l]; simpl.
    - intros H. inversion H; subst.
      destruct (accessTokenOf_normal _ _ _ H1) as [Hp Hne].
      split; [exact Hne|]. split; [exact Hs1|]. right.
      split; [exact Hp|]. split; [reflexivity|].
      apply in_or_app. right. now left.
    - destruct (accessTokenOf (silentToken env) "No access token received")
        as [t|e] eqn:Es.
      + intros H. inversion H; subst.
        destruct (accessTokenOf_normal _ _ _ Es) as [Hp Hne].
        split; [exact Hne|]. split; [exact Hs1|]. left.
        split; [exact Hp|]. split; [discriminate|].
        intros Hin. apply in_app_or in Hin.
        destruct Hin as [Hin|[Hin|[]]]; [contradiction | discriminate Hin].
      + intros H. inversion H; subst.
        destruct (accessTokenOf_normal _ _ _ H1) as [Hp Hne].
        split; [exact Hne|]. split; [exact Hs1|]. right.
        split; [exact Hp|]. split.
        * revert Es. unfold accessTokenOf.
          destruct (silentToken env) as [[t|]|e']; try reflexivity.
          destruct (t =? ""); [reflexivity | discriminate].
        * apply in_or_app. right. right. now left. }
  destruct (isMsalInitialized s) eqn:Ei.
  - apply Hinit; [exact Ei | intros []].
  - destruct (initializeOk env).
    + apply Hinit; [reflexivity | intros [H|[]]; discriminate H].
    + discriminate.
Qed.

Lemma getAccessToken_token_witness :
  getAccessToken msalPopup newAuthStore =
    ((Normal "tok-2", [MsalInitialize; MsalAcquireTokenPopup]),
     Op.exec (set_isMsalInitialized true) newAuthStore) /\
  "tok-2" <> "".
Proof.
  split; [reflexivity|].
  exact (proj1 (getAccessToken_token msalPopup newAuthStore _ "tok-2" _ eq_refl)).
Defined.

(** X24. What [getAccessToken] asks of MSAL.  It touches nothing of the store
    but the readiness flag.  When MSAL is not ready and cannot be
    initialised it throws without asking for a token.  Otherwise the silent
    request is made exactly when an account is cached, and the popup
    exactly when the silent request did not deliver a token, also when
    there was no account to ask for; the completion is then the popup's. *)
Theorem getAccessToken_requests :
  forall (env : MsalEnv) (s : AuthStore),
    let result := fst (fst (getAccessToken env s)) in
    let calls := snd (fst (getAccessToken env s)) in
    let s' := snd (getAccessToken env s) in
    let ready := isMsalInitialized s || initializeOk env in
    userProfileSubject s' = userProfileSubject s /\
    isAuthenticatedSubject s' = isAuthenticatedSubject s /\
    isLoadingSubject s' = isLoadingSubject s /\
    emitted s' = emitted s /\
    isMsalInitialized s' = ready /\
    (ready = false ->
     result = Throw (newError "MSAL not initialized") /\
     calls = [MsalInitialize]) /\
    (ready = true ->
     (In MsalAcquireTokenSilent calls <-> cachedAccounts env <> []) /\
     (In MsalAcquireTokenPopup calls <-> silentDelivers env = false) /\
     (silentDelivers env = false ->
      result =
        accessTokenOf (popupToken env) "No access token received from popup")).
Proof.
  intros env s. cbv zeta.
  unfold getAccessToken, ensureMSALInitialized_run, silentDelivers,
    accessTokenOf.
  destruct (isMsalInitialized s) eqn:Ei; [|destruct (initializeOk env)];
    simpl; try (repeat split; try reflexivity; discriminate);
    (destruct (cachedAccounts env) as [|a l];
     [|destruct (silentToken env) as [[t|]|e]; [destruct (t =? "")| |]]);
    simpl; repeat split; intros; simpl in *; intuition congruence.
Qed.

Lemma getAccessToken_requests_witness :
  fst (fst (getAccessToken (mkMsalEnv false [] (Throw TypeError)
                              (Normal (Some "tok-3"))) newAuthStore)) =
    Throw (newError "MSAL not initialized") /\
  In MsalAcquireTokenPopup (snd (fst (getAccessToken msalPopup newAuthStore))).
Proof.
  destruct (getAccessToken_requests
              (mkMsalEnv false [] (Throw TypeError) (Normal (Some "tok-3")))
              newAuthStore) as [_ [_ [_ [_ [_ [Hno _]]]]]].
  destruct (getAccessToken_requests msalPopup newAuthStore)
    as [_ [_ [_ [_ [_ [_ Hyes]]]]]].
  split.
  - exact (proj1 (Hno eq_refl)).
  - apply (proj1 (proj2 (Hyes eq_refl))). reflexivity.
Defined.



End TokenFacts.

(* ================================================================ *)
(** ** Dashboard component *)

Section DashboardFacts.
Local Open Scope task_scope.

Ltac run_task :=
  unfold loadUserData, loadUserData_body, sendEmail, resetEmailForm,
    awaitGraph, Task.bind, Task.tryFinally, Task.tryCatch, Task.modify,
    Task.lift, Task.ret, getMyMessages, getMyEvents, getMyFiles, getAllUsers,
    graphSendEmail.



(** X27. [sendEmail] never throws.  With an empty recipient, subject or body it
    only shows the fill-in alert: no call is made and the form and the
    loading flag stay as they are.  Otherwise it calls the directory client
    once to send, with the comma-separated recipients trimmed, shows the
    success alert whether or not the sending failed, clears the form, and
    asks for the messages again; when that last request fails the failure
    alert follows the success alert.  The loading flag is off at the
    end. *)
Theorem sendEmail_outcome :
  forall (env : DataEnv) (d : Dashboard),
    let e := d_newEmail d in
    (formFilled e = false ->
     sendEmail env d = (Normal tt, d_alert AlertFillFields d)) /\
    (formFilled e = true ->
     exists d' : Dashboard,
       sendEmail env d = (Normal tt, d') /\
       d_requests d' =
         d_requests d ++
         [SendEmail (map JsText.trim (JsText.split "," (em_to e)))
            (em_subject e) (em_body e) (em_type e);
          GetMyMessages 5] /\
       d_alerts d' =
         d_alerts d ++
         AlertSent ::
         match messagesResponse env with
         | Normal _ => []
         | Throw error => [AlertFailed error]
         end /\
       d_messages d' =
         match messagesResponse env with
         | Normal value => value
         | Throw _ => d_messages d
         end /\
       d_newEmail d' = mkNewEmail "" "" "" Text /\
       d_isLoading d' = false).
Proof.
  intros env d. cbv zeta. unfold formFilled. run_task.
  destruct ((em_to (d_newEmail d) =? "") || (em_subject (d_newEmail d) =? "") ||
            (em_body (d_newEmail d) =? "")); simpl.
  - split; [reflexivity | discriminate].
  - split; [discriminate|]. intros _.
    destruct (sendMailResponse env) as [u|es];
      destruct (messagesResponse env) as [ms|em]; simpl;
      eexists; (split; [reflexivity|]); simpl; rewrite <- ?app_assoc; simpl;
      repeat split.
Qed.

Lemma sendEmail_outcome_witness :
  exists d' : Dashboard,
    sendEmail dataDown editorDashboard = (Normal tt, d') /\
    d_requests d' =
      [SendEmail ["a@contoso.example"; "b@contoso.example"] "Hello" "Hi all" Text;
       GetMyMessages 5] /\
    d_alerts d' = [AlertSent; AlertFailed (ProviderError "network")].
Proof.
  destruct (proj2 (sendEmail_outcome dataDown editorDashboard) eq_refl)
    as [d' [Hrun [Hreq [Hal _]]]].
  exists d'. split; [exact Hrun|]. split; [exact Hreq | exact Hal].
Defined.

End DashboardFacts.

(* ================================================================ *)
(** ** Report filter, audit log, recipients *)

Section ComponentFacts.

Lemma filter_filter {A} (f g : A -> bool) (l : list A) :
  filter g (filter f l) = filter (fun a => f a && g a) l.
Proof.
  induction l as [|a l IH]; simpl; [reflexivity|].
  destruct (f a); simpl; [destruct (g a); now rewrite IH | exact IH].
Qed.

Lemma filter_all {A} (l : list A) : filter (fun _ => true) l = l.
Proof. induction l as [|a l IH]; simpl; [reflexivity | now rewrite IH]. Qed.

Lemma filter_same {A} (f g : A -> bool) (l : list A) :
  (forall a, f a = g a) -> filter f l = filter g l.
Proof.
  intros H. induction l as [|a l IH]; simpl; [reflexivity|].
  now rewrite H, IH.
Qed.

(** X28. [filterReports] keeps, in their order, exactly the reports that pass
    the three filters: the search text, unless it is blank, must occur in
    the title or the description ignoring case (the text is lower-cased but
    not trimmed); category and status, unless "all", must be equal.  With a
    blank text and both selections "all" every report is kept. *)
Theorem filterReports_filter :
  forall (reports : list Report) (q cat st : string),
    filterReports reports q cat st = filter (reportPasses q cat st) reports /\
    (forall r, In r (filterReports reports q cat st) ->
               In r reports /\ reportPasses q cat st r = true) /\
    length (filterReports reports q cat st) <= length reports /\
    (JsText.trim q = "" -> filterReports reports q "all" "all" = reports).
Proof.
  intros reports q cat st.
  assert (H : filterReports reports q cat st =
              filter (reportPasses q cat st) reports).
  { unfold filterReports, reportPasses. cbv zeta.
    destruct (JsText.trim q =? ""); destruct (cat =? "all");
      destruct (st =? "all"); simpl; rewrite ?filter_filter;
      try (symmetry; apply filter_all);
      apply filter_same; intros r; rewrite ?andb_true_r, ?andb_assoc;
      reflexivity. }
  split; [exact H|]. split; [|split].
  - intros r Hr. rewrite H in Hr. now apply filter_In in Hr.
  - rewrite H. apply filter_length_le.
  - intros Hq. unfold filterReports. cbv zeta. rewrite Hq. reflexivity.
Qed.

Lemma filterReports_filter_witness :
  JsText.trim "  " = "" /\
  filterReports sampleReports "  " "all" "all" = sampleReports /\
  map rep_id (filterReports sampleReports "AUDIT" "all" "success") = ["2"].
Proof.
  split; [reflexivity|]. split.
  - apply (proj2 (proj2 (proj2 (filterReports_filter sampleReports "  "
                                  "all" "all")))). reflexivity.
  - reflexivity.
Defined.

Lemma addAuditLog_eq (now action details : string)
    (auditLogs : list UserAction) :
  length auditLogs <= 100 ->
  addAuditLog now action details auditLogs =
  mkUserAction (JsText.natToString (S (length auditLogs))) action now details
    :: firstn 99 auditLogs.
Proof.
  intros Hle. unfold addAuditLog. cbv zeta. rewrite Nat.add_1_r.
  destruct (100 <? length (_ :: auditLogs))%nat eqn:E.
  - reflexivity.
  - apply Nat.ltb_ge in E. simpl in E.
    rewrite firstn_all2 by lia. reflexivity.
Qed.

(** X29. [addAuditLog] puts the new entry first, numbered one more than the
    entries there were, and keeps the hundred newest entries in their
    order: a log of at most 100 entries stays at most 100 long.  Once the
    log is full every new entry gets the id "101". *)
Theorem addAuditLog_cap :
  forall (now action details : string) (auditLogs : list UserAction),
    length auditLogs <= 100 ->
    let newLog :=
      mkUserAction (JsText.natToString (S (length auditLogs))) action now
        details in
    addAuditLog now action details auditLogs =
      newLog :: firstn 99 auditLogs /\
    length (addAuditLog now action details auditLogs) =
      Nat.min (S (length auditLogs)) 100 /\
    (length auditLogs = 100 ->
     forall now' action' details',
       map ua_id
         (firstn 2 (addAuditLog now' action' details'
                      (addAuditLog now action details auditLogs))) =
       ["101"; "101"]).
Proof.
  intros now action details logs Hle. cbv zeta.
  pose proof (addAuditLog_eq now action details logs Hle) as H1.
  assert (Hlen : length (addAuditLog now action details logs) =
                 Nat.min (S (length logs)) 100).
  { rewrite H1. cbn [length]. rewrite length_firstn. lia. }
  split; [exact H1|]. split; [exact Hlen|].
  intros H100 now' action' details'.
  rewrite (addAuditLog_eq now' action' details') by (rewrite Hlen; lia).
  rewrite Hlen, H100, H1, H100. reflexivity.
Qed.

Lemma addAuditLog_cap_witness :
  length (addAuditLog "2026-01-01T00:00:00.000Z" "LOGIN_SUCCESS" "ok"
            [mkUserAction "1" "LOGIN_SUCCESS" "" ""]) = 2.
Proof.
  rewrite (proj1 (proj2 (addAuditLog_cap "2026-01-01T00:00:00.000Z"
                           "LOGIN_SUCCESS" "ok"
                           [mkUserAction "1" "LOGIN_SUCCESS" "" ""]
                           ltac:(simpl; lia)))).
  reflexivity.
Defined.

End ComponentFacts.

Section Recipients.
Import JsText.

Lemma split_length (c : ascii) (s : string) :
  length (split c s) = S (countChar c s).
Proof.
  induction s as [|d t IH]; simpl; [reflexivity|].
  destruct (Ascii.eqb d c); simpl; [now rewrite IH|].
  destruct (split c t) as [|piece pieces]; [discriminate IH | exact IH].
Qed.

Lemma split_no_separator (c : ascii) (s : string) :
  Forall (fun piece => countChar c piece = 0) (split c s).
Proof.
  induction s as [|d t IH]; simpl.
  - constructor; [reflexivity | constructor].
  - destruct (Ascii.eqb d c) eqn:E.
    + constructor; [reflexivity | exact IH].
    + destruct (split c t) as [|piece pieces].
      * constructor; [simpl; now rewrite E | constructor].
      * inversion IH; subst. constructor; [simpl; now rewrite E | assumption].
Qed.

Lemma trimStart_clean (s : string) : startsClean (trimStart s).
Proof.
  induction s as [|c t IH]; simpl; [exact I|].
  destruct (isWhiteSpace c) eqn:E; [exact IH | exact E].
Qed.

Lemma trimStart_id (s : string) : startsClean s -> trimStart s = s.
Proof. destruct s as [|c t]; simpl; [reflexivity | now intros ->]. Qed.

Lemma trimEnd_clean (s : string) : startsClean s -> startsClean (trimEnd s).
Proof.
  destruct s as [|c t]; simpl; [auto|]. intros Hc.
  destruct (trimEnd t); [rewrite Hc|]; exact Hc.
Qed.

Lemma trimEnd_cons (c : ascii) (t : string) :
  trimEnd (String c t) =
  match trimEnd t with
  | EmptyString => if isWhiteSpace c then EmptyString else String c EmptyString
  | String d t' => String c (String d t')
  end.
Proof. reflexivity. Qed.

Lemma trimEnd_idem (s : string) : trimEnd (trimEnd s) = trimEnd s.
Proof.
  induction s as [|c t IH]; [reflexivity|].
  rewrite (trimEnd_cons c t).
  destruct (trimEnd t) as [|d t'] eqn:E.
  - destruct (isWhiteSpace c) eqn:Ec; [reflexivity|].
    rewrite trimEnd_cons. simpl. now rewrite Ec.
  - rewrite trimEnd_cons, IH. reflexivity.
Qed.

Lemma trim_idem (s : string) : trim (trim s) = trim s.
Proof.
  unfold trim.
  rewrite (trimStart_id (trimEnd (trimStart s)))
    by apply trimEnd_clean, trimStart_clean.
  apply trimEnd_idem.
Qed.

Lemma countChar_trimStart (c : ascii) (s : string) :
  countChar c s = 0 -> countChar c (trimStart s) = 0.
Proof.
  induction s as [|d t IH]; simpl; [auto|]. intros H.
  destruct (isWhiteSpace d); [apply IH; lia | exact H].
Qed.

Lemma countChar_trimEnd (c : ascii) (s : string) :
  countChar c s = 0 -> countChar c (trimEnd s) = 0.
Proof.
  induction s as [|d t IH]; simpl; [auto|]. intros H.
  assert (Ht : countChar c (trimEnd t) = 0) by (apply IH; lia).
  destruct (trimEnd t) as [|e t'].
  - destruct (isWhiteSpace d); simpl; lia.
  - cbn [countChar] in *. lia.
Qed.

(** X30. The recipients that [sendEmail] hands to the directory client: one per
    comma-separated piece of the "to" field, that is one more than there
    are commas, each without white space at either end and without comma;
    a piece of white space only gives an empty recipient. *)
Theorem sendEmail_recipients :
  forall to : string,
    let recipients := map trim (split "," to) in
    length recipients = S (countChar "," to) /\
    Forall (fun r => trim r = r /\ startsClean r /\ countChar "," r = 0)
      recipients /\
    (forall piece, In piece (split "," to) -> trim piece = "" ->
                   In "" recipients).
Proof.
  intros to. cbv zeta. split; [|split].
  - rewrite length_map. apply split_length.
  - apply Forall_map. eapply Forall_impl; [|apply (split_no_separator "," to)].
    intros piece Hp. cbv beta in Hp. split; [apply trim_idem|]. split.
    + apply trimEnd_clean, trimStart_clean.
    + unfold trim. now apply countChar_trimEnd, countChar_trimStart.
  - intros piece Hin Ht. rewrite <- Ht. now apply in_map.
Qed.

Lemma sendEmail_recipients_witness :
  In " " (split "," "a@contoso.example, ") /\
  In "" (map trim (split "," "a@contoso.example, ")).
Proof.
  assert (H : In " " (split "," "a@contoso.example, "))
    by (right; left; reflexivity).
  split; [exact H|].
  exact (proj2 (proj2 (sendEmail_recipients "a@contoso.example, ")) " " H
           eq_refl).
Defined.

End Recipients.
